(** * PTP-CAD: pretest probability of coronary artery disease

    A shallow embedding of the pure logic of the calculator: [getAgeBand],
    [PTP_TABLE], [calculatePretestProbability], [interpretCAC] and the
    [onCalculate] handler that feeds them from the form fields.

    The repository holds three revisions of that logic.  They share
    [getAgeBand] and [PTP_TABLE] and differ in how much the resolver reports
    and in the CAC buckets:
    - [Script]   : src/script.js, no flags, [interpretCAC] answers null on
                   invalid input, three CAC buckets;
    - [Detailed] : first script of src/unnamed/part_000, flags, age band and
                   percent in the result, four CAC buckets;
    - [Build4]   : second script of src/unnamed/part_000 (build marker
                   CAC-pill-fix-v4), flags, three CAC buckets.

    A JavaScript Number is an IEEE 754 binary64 value: it is modelled by the
    primitive type [float], whose comparisons are specified against
    [SpecFloat] in the library. *)

From Stdlib Require Import ZArith Lia Bool List String Ascii DecimalString.
From Stdlib Require Import Floats.
From Stdlib Require Uint63.
From stdpp Require Import base option gmap strings.

Open Scope string_scope.
Open Scope list_scope.

(** ** JavaScript values *)

Abbreviation number := float.

(** The primitive values the functions receive and hand around. *)
Inductive value : Type :=
| VUndefined
| VNull
| VBool (b : bool)
| VNum (n : number)
| VStr (s : string).

(** Conversions of the language that the scripts call and that are not
    written in the repository: [Number(s)] on a string and the text of a
    Number used as a property key. *)
Class Builtins : Type := {
  StringToNumber : string -> number;
  NumberToString : number -> string
}.

(** Truthiness, as tested by [!v], [v ? a : b] and [&&]. *)
Definition truthy (v : value) : bool :=
  match v with
  | VUndefined | VNull => false
  | VBool b => b
  | VNum n => negb (is_zero n || is_nan n)
  | VStr s => negb (String.eqb s "")
  end.

(** [a === b]. *)
Definition strictEq (a b : value) : bool :=
  match a, b with
  | VUndefined, VUndefined => true
  | VNull, VNull => true
  | VBool x, VBool y => Bool.eqb x y
  | VNum x, VNum y => (x =? y)%float
  | VStr x, VStr y => String.eqb x y
  | _, _ => false
  end.

(** SameValueZero, the comparison of [Array.prototype.includes]. *)
Definition sameValueZero (a b : value) : bool :=
  match a, b with
  | VNum x, VNum y => (x =? y)%float || (is_nan x && is_nan y)
  | _, _ => strictEq a b
  end.

Definition includes (arr : list value) (v : value) : bool :=
  existsb (sameValueZero v) arr.

(** [Number.isFinite(v)]: no conversion, anything but a Number is refused. *)
Definition Number_isFinite (v : value) : bool :=
  match v with
  | VNum n => is_finite n
  | _ => false
  end.

Section Conversions.
Context `{Builtins}.

(** [Number(v)]. *)
Definition Number (v : value) : number :=
  match v with
  | VUndefined => nan
  | VNull => zero
  | VBool true => one
  | VBool false => zero
  | VNum n => n
  | VStr s => StringToNumber s
  end.

(** The property key that [obj[v]] uses. *)
Definition ToPropertyKey (v : value) : string :=
  match v with
  | VUndefined => "undefined"
  | VNull => "null"
  | VBool true => "true"
  | VBool false => "false"
  | VNum n => NumberToString n
  | VStr s => s
  end.

End Conversions.

(** Decimal text of an integer, as a template literal prints it. *)
Definition decimal (z : Z) : string := NilZero.string_of_int (Z.to_int z).

(** The finite values of the specification of binary64: the zeros and the
    finite constructor. *)
Definition SFfinite (x : spec_float) : bool :=
  match x with
  | S754_zero _ | S754_finite _ _ _ => true
  | S754_infinity _ | S754_nan => false
  end.

(** ** Flags *)

Record flag : Type := Flag { level : string; msg : string }.

(** [f => f.level === "bad"]. *)
Definition isBad (f : flag) : bool := String.eqb (level f) "bad".

(** ** Age bands (the same text in the three scripts) *)

Definition getAgeBand (ageYears : value) : value :=
  match ageYears with
  | VNum a =>
      if negb (is_finite a) then VNull
      else if (a <? 30)%float then VStr "lt30"
      else if (a <=? 39)%float then VStr "30-39"
      else if (a <=? 49)%float then VStr "40-49"
      else if (a <=? 59)%float then VStr "50-59"
      else if (a <=? 69)%float then VStr "60-69"
      else VStr "70+"
  | _ => VNull
  end.

(** The five keys of a table row, in the order [getAgeBand] tests them. *)
Definition tableBands : list string := ["30-39"; "40-49"; "50-59"; "60-69"; "70+"].

(** ** The probability table (the same literal in the three scripts)

    [table[symptom][sex][ageBand] = ptpPercent].  The entries are integer
    literals, kept as integers. *)

Abbreviation Table := (gmap string (gmap string (gmap string Z))).

Definition PTP_TABLE : Table :=
  list_to_map [
    ("chestPain", list_to_map [
       ("men",   list_to_map [("30-39", 4); ("40-49", 22); ("50-59", 32); ("60-69", 44); ("70+", 52)]);
       ("women", list_to_map [("30-39", 5); ("40-49", 10); ("50-59", 13); ("60-69", 16); ("70+", 27)])]);
    ("dyspnea", list_to_map [
       ("men",   list_to_map [("30-39", 0); ("40-49", 12); ("50-59", 20); ("60-69", 27); ("70+", 32)]);
       ("women", list_to_map [("30-39", 3); ("40-49", 3); ("50-59", 9); ("60-69", 14); ("70+", 12)])])
  ]%Z.

Section Lookup.
Context `{Builtins}.

(** [T?.[symptom]?.[sex]?.[ageBand]] on the own properties of the table;
    [None] is undefined.  The two scripts of part_000 get here with listed
    keys only.  script.js gets here with any truthy [sex] and [symptom]: a key
    that names a member inherited from Object.prototype (such as "toString")
    is looked up there by the language and is outside this model. *)
Definition lookupPTP (T : Table) (symptom sex ageBand : value) : option Z :=
  by_sex ← T !! ToPropertyKey symptom;
  by_band ← by_sex !! ToPropertyKey sex;
  by_band !! ToPropertyKey ageBand.

End Lookup.

Definition sexes : list value := [VStr "men"; VStr "women"].
Definition symptoms : list value := [VStr "chestPain"; VStr "dyspnea"].

(** [ptp <= 15 ? "low" : "intermediateHigh"]. *)
Definition categoryOf (ptp : Z) : string :=
  if (ptp <=? 15)%Z then "low" else "intermediateHigh".

(** [`≤${ptp}%`]. *)
Definition displayOf (ptp : Z) : string := ("≤" ++ decimal ptp ++ "%")%string.

(** The values of the form fields, read by [onCalculate]. *)
Record form : Type := Form {
  age_value : string;
  sex_value : string;
  symptom_value : string;
  cac_value : string
}.

(** ** Text

    Text is a sequence of bytes here (UTF-8).  The scripts replace and test
    ASCII characters only, which are single bytes in it. *)

(** The double quote character. *)
Definition dq : string := String "034"%char "".

(** Number of occurrences of a character. *)
Fixpoint occurrences (c : ascii) (s : string) : nat :=
  match s with
  | EmptyString => 0
  | String d rest => (if Ascii.eqb d c then 1 else 0) + occurrences c rest
  end.

(** [s.replaceAll(pattern, replacement)] for a text pattern: the occurrences
    are taken from left to right and do not overlap.  [skip] counts the
    characters of a match that remain to be dropped. *)
Fixpoint replaceFrom (pattern replacement : string) (skip : nat) (s : string) : string :=
  match s with
  | EmptyString => EmptyString
  | String c rest =>
      match skip with
      | S k => replaceFrom pattern replacement k rest
      | O =>
          if String.prefix pattern s
          then (replacement ++ replaceFrom pattern replacement (String.length pattern - 1) rest)%string
          else String c (replaceFrom pattern replacement 0 rest)
      end
  end.

(** With the empty pattern the replacement goes before every character and
    at the end (exact on ASCII text; the scripts never do this). *)
Fixpoint interleave (replacement s : string) : string :=
  match s with
  | EmptyString => replacement
  | String c rest => (replacement ++ String c (interleave replacement rest))%string
  end.

Definition replaceAll (pattern replacement s : string) : string :=
  match pattern with
  | EmptyString => interleave replacement s
  | String _ _ => replaceFrom pattern replacement 0 s
  end.

(** [escapeHtml] (the same text in the two scripts of part_000); [String(str)]
    leaves a text as it is. *)
Definition escapeHtml (str : string) : string :=
  replaceAll "'" "&#039;"
    (replaceAll dq "&quot;"
       (replaceAll ">" "&gt;"
          (replaceAll "<" "&lt;"
             (replaceAll "&" "&amp;" str)))).

(** [renderFlags] (the same in the two scripts of part_000): the text it
    assigns to the innerHTML of the flags list. *)
Definition renderFlags (flags : list flag) : string :=
  match flags with
  | [] => ("<li class=" ++ dq ++ "muted" ++ dq ++ ">No flags.</li>")%string
  | _ =>
      String.concat ""
        (map (fun f =>
                let cls := if String.eqb (level f) "bad" then "flag-bad"
                           else if String.eqb (level f) "warn" then "flag-warn"
                           else "flag-good" in
                ("<li class=" ++ dq ++ cls ++ dq ++ ">" ++ escapeHtml (msg f) ++ "</li>")%string)
             flags)
  end.

(** Replacing every character [c] of a text by the text [f c], in one pass:
    the notion the statements on [escapeHtml] are written with. *)
Fixpoint substitute (f : ascii -> string) (s : string) : string :=
  match s with
  | EmptyString => EmptyString
  | String c rest => (f c ++ substitute f rest)%string
  end.

(** The five characters [escapeHtml] rewrites, each with its entity. *)
Definition entityOf (c : ascii) : string :=
  if Ascii.eqb c "&" then "&amp;"
  else if Ascii.eqb c "<" then "&lt;"
  else if Ascii.eqb c ">" then "&gt;"
  else if Ascii.eqb c "034" then "&quot;"
  else if Ascii.eqb c "'" then "&#039;"
  else String c "".

(** ** src/script.js *)

Module Script.

Inductive PtpResult : Type :=
| Failure (flags : list flag)
| Success (ptpDisplay category : string) (flags : list flag).

Definition flags (r : PtpResult) : list flag :=
  match r with Failure fl => fl | Success _ _ fl => fl end.

Record CacInfo : Type := CacRange { range : string; category : string }.

Section Logic.
Context `{Builtins}.

Definition calculatePretestProbability (ageYears sex symptom : value) : PtpResult :=
  let ageBand := getAgeBand ageYears in
  if negb (truthy ageBand) || negb (truthy sex) || negb (truthy symptom)
  then Failure []
  else
    match lookupPTP PTP_TABLE symptom sex ageBand with
    | None => Failure []
    | Some ptp => Success (displayOf ptp) (categoryOf ptp) []
    end.

(** [None] is the null the function returns. *)
Definition interpretCAC (cacScore : value) : option CacInfo :=
  let n := Number cacScore in
  if negb (is_finite n) || (n <? 0)%float then None
  else if (n <=? 99)%float then Some (CacRange "≤15%" "low")
  else if (n <=? 999)%float then Some (CacRange ">15–50%" "intermediateHigh")
  else Some (CacRange ">50%" "high").

(** The two arguments [onCalculate] passes to [renderResults]. *)
Definition onCalculate (els : form) : PtpResult * option CacInfo :=
  let ptp := calculatePretestProbability
               (VNum (Number (VStr (age_value els))))
               (VStr (sex_value els))
               (VStr (symptom_value els)) in
  let cac := if truthy (VStr (cac_value els))
             then interpretCAC (VStr (cac_value els))
             else None in
  (ptp, cac).

End Logic.

Definition ok (r : PtpResult) : bool :=
  match r with Failure _ => false | Success _ _ _ => true end.

(** [pill]. *)
Definition pill (category : string) : string :=
  if String.eqb category "low" then ("<span class=" ++ dq ++ "badge low" ++ dq ++ ">Low ≤15%</span>")%string
  else if String.eqb category "high" then ("<span class=" ++ dq ++ "badge veryhigh" ++ dq ++ ">High >50%</span>")%string
  else ("<span class=" ++ dq ++ "badge high" ++ dq ++ ">Intermediate–High >15%</span>")%string.

(** [renderResults]: the text it assigns to the innerHTML of the results
    panel.  [ptp?.ok] holds for a success, [cac] for a result that is not
    null, and [html || ...] falls back on the empty text. *)
Definition renderResults (ptp : PtpResult) (cac : option CacInfo) : string :=
  let html := "" in
  let html :=
    match ptp with
    | Success ptpDisplay category _ =>
        (html ++ ("
      <div class=" ++ dq ++ "kpi" ++ dq ++ ">
        <div>
          <div class=" ++ dq ++ "label" ++ dq ++ ">Pre-test probability based on age, sex, primary symptom</div>
          <div class=" ++ dq ++ "value" ++ dq ++ ">" ++ ptpDisplay ++ "</div>
        </div>
        <div>" ++ pill category ++ "</div>
      </div>
    ")%string)%string
    | Failure _ => html
    end in
  let html :=
    match cac with
    | Some c =>
        (html ++ ("
      <div class=" ++ dq ++ "kpi" ++ dq ++ ">
        <div>
          <div class=" ++ dq ++ "label" ++ dq ++ ">Pretest probability based on CAC score</div>
          <div class=" ++ dq ++ "value" ++ dq ++ ">" ++ range c ++ "</div>
        </div>
        <div>" ++ pill (Script.category c) ++ "</div>
      </div>
    ")%string)%string
    | None => html
    end in
  if truthy (VStr html) then html
  else ("<div class=" ++ dq ++ "empty" ++ dq ++ ">Enter inputs and tap <b>Calculate</b>.</div>")%string.

(** The results panel after [onCalculate]. *)
Definition calculated `{Builtins} (els : form) : string :=
  renderResults (fst (onCalculate els)) (snd (onCalculate els)).

End Script.

(** ** src/unnamed/part_000, first script *)

Module Detailed.

Inductive PtpResult : Type :=
| Failure (flags : list flag) (ageBand : value)
| Success (ptpPercent : Z) (ptpDisplay category : string)
          (ageBand : value) (flags : list flag).

Definition ok (r : PtpResult) : bool :=
  match r with Failure _ _ => false | Success _ _ _ _ _ => true end.

Definition flags (r : PtpResult) : list flag :=
  match r with Failure fl _ => fl | Success _ _ _ _ fl => fl end.

Definition ageBand (r : PtpResult) : value :=
  match r with Failure _ b => b | Success _ _ _ b _ => b end.

Inductive CacResult : Type :=
| Invalid (level label detail : string)
| Bucket (bucket ptpRange level label detail : string).

Definition cacOk (c : CacResult) : bool :=
  match c with Invalid _ _ _ => false | Bucket _ _ _ _ _ => true end.

(** What [onCalculate] hands to [renderResults] and [renderFlags]. *)
Record rendered : Type := Rendered {
  ptpObj : PtpResult;
  cacObj : option CacResult;
  mergedFlags : list flag
}.

Section Logic.
Context `{Builtins}.

Definition calculatePretestProbability (ageYears sex symptom : value) : PtpResult :=
  let flags := [] in
  let ageBand := getAgeBand ageYears in
  let flags :=
    if negb (truthy ageBand)
    then flags ++ [Flag "bad" "Age is required and must be a number."]
    else flags in
  let flags :=
    if strictEq ageBand (VStr "lt30")
    then flags ++ [Flag "warn" "Age <30: the provided figure table begins at 30–39. Result may not be applicable."]
    else flags in
  let flags :=
    if negb (truthy sex) || negb (includes sexes sex)
    then flags ++ [Flag "bad" "Sex is required."]
    else flags in
  let flags :=
    if negb (truthy symptom) || negb (includes symptoms symptom)
    then flags ++ [Flag "bad" "Symptom selection is required."]
    else flags in
  if existsb isBad flags then Failure flags ageBand
  else if strictEq ageBand (VStr "lt30") then
    Failure (flags ++ [Flag "bad" "No table value available for age <30 from the provided figure. Cannot compute."]) ageBand
  else
    match lookupPTP PTP_TABLE symptom sex ageBand with
    | None =>
        Failure (flags ++ [Flag "bad" "No matching table value found (check inputs)."]) ageBand
    | Some ptp =>
        let category := categoryOf ptp in
        Success ptp (displayOf ptp) category ageBand flags
    end.

(** [None] is the null the function returns. *)
Definition interpretCAC (cacScore : value) : option CacResult :=
  if strictEq cacScore VNull || strictEq cacScore VUndefined
     || strictEq cacScore (VStr "")
  then None
  else
    let n := Number cacScore in
    if negb (is_finite n) || (n <? 0)%float then
      Some (Invalid "bad" "Invalid CAC" "CAC must be a number ≥ 0.")
    else if (n =? 0)%float then
      Some (Bucket "0" "≤15%" "low" "CAC 0" "Figure-style interpretation: CAC 0 → ≤15%.")
    else if (1 <=? n)%float && (n <=? 99)%float then
      Some (Bucket "1-99" "≤15%" "low" "CAC 1–99" "CAC 1–99 → ≤15% (low).")
    else if (100 <=? n)%float && (n <=? 999)%float then
      Some (Bucket "100-999" ">15–50%" "high" "CAC 100–999" "CAC 100–999 → >15–50%.")
    else
      Some (Bucket ">=1000" ">50%" "veryhigh" "CAC ≥1000" "CAC ≥1000 → >50%.").

Definition onCalculate (els : form) : rendered :=
  let ageYears := Number (VStr (age_value els)) in
  let sex := VStr (sex_value els) in
  let symptom := VStr (symptom_value els) in
  let cacVal := VStr (cac_value els) in
  let ptpObj := calculatePretestProbability (VNum ageYears) sex symptom in
  let cacObj :=
    if negb (strictEq cacVal (VStr "")) && negb (strictEq cacVal VNull)
       && negb (strictEq cacVal VUndefined)
    then interpretCAC cacVal
    else None in
  let mergedFlags := flags ptpObj in
  let mergedFlags :=
    if ok ptpObj then
      let m := if (100 <? ageYears)%float
               then mergedFlags ++ [Flag "warn" "Age >100: verify input."]
               else mergedFlags in
      if (ageYears <? 30)%float
      then m ++ [Flag "warn" "Age <30: outside figure range; computation not provided."]
      else m
    else mergedFlags in
  let mergedFlags :=
    match cacObj with
    | Some c =>
        if negb (cacOk c)
        then mergedFlags ++ [Flag "bad" "CAC input invalid (must be ≥0)."]
        else mergedFlags
    | None => mergedFlags
    end in
  Rendered ptpObj cacObj mergedFlags.

End Logic.

(** [badgeForCategory]. *)
Definition badgeForCategory (category : string) : string :=
  if String.eqb category "low" then ("<span class=" ++ dq ++ "badge low" ++ dq ++ ">Low ≤15%</span>")%string
  else ("<span class=" ++ dq ++ "badge high" ++ dq ++ ">Intermediate–High &gt;15%</span>")%string.

(** [badgeForCACLevel]: a legend, the same for every level. *)
Definition badgeForCACLevel (level : string) : string :=
  ("<span class=" ++ dq ++ "badge high" ++ dq ++ ">Low ≤15%, Intermediate–High &gt;15%, and High &gt;50%</span>")%string.

(** [renderResults]: the text it assigns to the innerHTML of the results
    panel. *)
Definition renderResults (ptpObj : PtpResult) (cacObj : option CacResult) : string :=
  match ptpObj with
  | Failure _ _ => ("<div class=" ++ dq ++ "empty" ++ dq ++ ">Fix the flagged inputs to calculate.</div>")%string
  | Success _ ptpDisplay category _ _ =>
      let kpi1 := ("
    <div class=" ++ dq ++ "kpi" ++ dq ++ ">
      <div>
        <div class=" ++ dq ++ "label" ++ dq ++ ">Pre-test probability based on age, sex, primary symptom</div>
        <div class=" ++ dq ++ "value" ++ dq ++ ">" ++ escapeHtml ptpDisplay ++ "</div>
      </div>
      <div>" ++ badgeForCategory category ++ "</div>
    </div>
  ")%string in
      let cacBlock := "" in
      let cacBlock :=
        match cacObj with
        | Some (Invalid _ label detail) =>
            ("
        <div class=" ++ dq ++ "kpi" ++ dq ++ ">
          <div>
            <div class=" ++ dq ++ "label" ++ dq ++ ">Pretest probability based on CAC score</div>
            <div class=" ++ dq ++ "value" ++ dq ++ ">" ++ escapeHtml label ++ "</div>
          </div>
          <div><span class=" ++ dq ++ "badge veryhigh" ++ dq ++ ">Check CAC</span></div>
        </div>
        <div class=" ++ dq ++ "muted small" ++ dq ++ ">" ++ escapeHtml detail ++ "</div>
      ")%string
        | Some (Bucket _ ptpRange level label detail) =>
            ("
        <div class=" ++ dq ++ "kpi" ++ dq ++ ">
          <div>
            <div class=" ++ dq ++ "label" ++ dq ++ ">Pretest probability based on CAC score</div>
            <div class=" ++ dq ++ "value" ++ dq ++ ">" ++ escapeHtml ptpRange ++ "</div>
          </div>
          <div>" ++ badgeForCACLevel level ++ "</div>
        </div>
        <div class=" ++ dq ++ "muted small" ++ dq ++ ">CAC bucket: " ++ escapeHtml label ++ " • " ++ escapeHtml detail ++ "</div>
      ")%string
        | None => cacBlock
        end in
      (kpi1 ++ cacBlock)%string
  end.

(** The results panel and the flags list after [onCalculate]. *)
Definition calculated `{Builtins} (els : form) : string * string :=
  (renderResults (ptpObj (onCalculate els)) (cacObj (onCalculate els)),
   renderFlags (mergedFlags (onCalculate els))).

End Detailed.

(** ** src/unnamed/part_000, second script (build CAC-pill-fix-v4) *)

Module Build4.

Inductive PtpResult : Type :=
| Failure (flags : list flag)
| Success (ptpDisplay category : string) (flags : list flag).

Definition flags (r : PtpResult) : list flag :=
  match r with Failure fl => fl | Success _ _ fl => fl end.

Inductive CacResult : Type :=
| Invalid (msg : string)
| Range (range category : string).

Section Logic.
Context `{Builtins}.

Definition calculatePretestProbability (ageYears sex symptom : value) : PtpResult :=
  let flags := [] in
  let ageBand := getAgeBand ageYears in
  let flags :=
    if negb (truthy ageBand)
    then flags ++ [Flag "bad" "Age is required and must be a number."]
    else flags in
  let flags :=
    if strictEq ageBand (VStr "lt30")
    then flags ++ [Flag "warn" "Age <30: figure table begins at 30–39; not applicable."]
    else flags in
  let flags :=
    if negb (truthy sex) || negb (includes sexes sex)
    then flags ++ [Flag "bad" "Sex is required."]
    else flags in
  let flags :=
    if negb (truthy symptom) || negb (includes symptoms symptom)
    then flags ++ [Flag "bad" "Symptom selection is required."]
    else flags in
  if existsb isBad flags then Failure flags
  else if strictEq ageBand (VStr "lt30") then
    Failure (flags ++ [Flag "bad" "No table value for age <30 from the provided figure."])
  else
    match lookupPTP PTP_TABLE symptom sex ageBand with
    | None => Failure (flags ++ [Flag "bad" "No matching table value found."])
    | Some ptp => Success (displayOf ptp) (categoryOf ptp) flags
    end.

Definition interpretCAC (cacScore : value) : CacResult :=
  let n := Number cacScore in
  if negb (is_finite n) || (n <? 0)%float then Invalid "CAC must be a number ≥ 0."
  else if (n <=? 99)%float then Range "≤15%" "low"
  else if (n <=? 999)%float then Range ">15–50%" "intermediateHigh"
  else Range ">50%" "high".

(** The arguments of [renderResults] and of [renderFlags]. *)
Definition onCalculate (els : form) : PtpResult * option CacResult * list flag :=
  let ageYears := Number (VStr (age_value els)) in
  let sex := VStr (sex_value els) in
  let symptom := VStr (symptom_value els) in
  let ptpObj := calculatePretestProbability (VNum ageYears) sex symptom in
  let cacVal := VStr (cac_value els) in
  let cacObj :=
    if negb (strictEq cacVal (VStr "")) && negb (strictEq cacVal VNull)
       && negb (strictEq cacVal VUndefined)
    then Some (interpretCAC cacVal)
    else None in
  (ptpObj, cacObj, flags ptpObj).

End Logic.

Definition ok (r : PtpResult) : bool :=
  match r with Failure _ => false | Success _ _ _ => true end.

(** [pillFor]. *)
Definition pillFor (category : string) : string :=
  if String.eqb category "low" then ("<span class=" ++ dq ++ "badge low" ++ dq ++ ">Low ≤15%</span>")%string
  else if String.eqb category "high" then ("<span class=" ++ dq ++ "badge veryhigh" ++ dq ++ ">High &gt;50%</span>")%string
  else ("<span class=" ++ dq ++ "badge high" ++ dq ++ ">Intermediate–High &gt;15%</span>")%string.

(** [renderResults]: the text it assigns to the innerHTML of the results
    panel, when the page has one. *)
Definition renderResults (ptpObj : PtpResult) (cacObj : option CacResult) : string :=
  match ptpObj with
  | Failure _ => ("<div class=" ++ dq ++ "empty" ++ dq ++ ">Fix the flagged inputs to calculate.</div>")%string
  | Success ptpDisplay category _ =>
      let ptpBlock := ("
    <div class=" ++ dq ++ "kpi" ++ dq ++ ">
      <div>
        <div class=" ++ dq ++ "label" ++ dq ++ ">Pre-test probability based on age, sex, primary symptom</div>
        <div class=" ++ dq ++ "value" ++ dq ++ ">" ++ escapeHtml ptpDisplay ++ "</div>
      </div>
      <div>" ++ pillFor category ++ "</div>
    </div>
  ")%string in
      let cacBlock := "" in
      let cacBlock :=
        match cacObj with
        | Some (Invalid _) =>
            ("
        <div class=" ++ dq ++ "kpi" ++ dq ++ ">
          <div>
            <div class=" ++ dq ++ "label" ++ dq ++ ">Pretest probability based on CAC score</div>
            <div class=" ++ dq ++ "value" ++ dq ++ ">—</div>
          </div>
          <div><span class=" ++ dq ++ "badge veryhigh" ++ dq ++ ">Check CAC</span></div>
        </div>
      ")%string
        | Some (Range range category) =>
            ("
        <div class=" ++ dq ++ "kpi" ++ dq ++ ">
          <div>
            <div class=" ++ dq ++ "label" ++ dq ++ ">Pretest probability based on CAC score</div>
            <div class=" ++ dq ++ "value" ++ dq ++ ">" ++ escapeHtml range ++ "</div>
          </div>
          <div>" ++ pillFor category ++ "</div>
        </div>
      ")%string
        | None => cacBlock
        end in
      (ptpBlock ++ cacBlock)%string
  end.

(** The results panel and the flags list after [onCalculate]. *)
Definition calculated `{Builtins} (els : form) : string * string :=
  (renderResults (fst (fst (onCalculate els))) (snd (fst (onCalculate els))),
   renderFlags (snd (onCalculate els))).

End Build4.

(** ** The page

    The script binds [PTP_TABLE] once when it loads; afterwards the user edits
    the form and clicks the two buttons.  The click handlers write the form
    fields and the results panel, and nothing else.  [handler] is the
    [onCalculate] of the script at hand, [results] what it last rendered. *)

Section Page.
Context {view : Type} (handler : form -> view).

Record page : Type := Page {
  table : Table;
  els : form;
  results : option view
}.

Inductive event : Type :=
| Edit (fields : form)
| ClickCalculate
| ClickReset.

Definition loaded : page := Page PTP_TABLE (Form "" "" "" "") None.

Definition step (pg : page) (e : event) : page :=
  match e with
  | Edit fields => Page (table pg) fields (results pg)
  | ClickCalculate => Page (table pg) (els pg) (Some (handler (els pg)))
  | ClickReset => Page (table pg) (Form "" "" "" "") None
  end.

Definition run (events : list event) (pg : page) : page :=
  fold_left step events pg.

End Page.

(** ** The reference dialog (the two scripts of part_000)

    [refModal] with its class list and its aria-hidden attribute.  The
    listeners: a click on the open button, a click on the close button, a
    click inside the dialog (closing when its target is the dialog itself,
    the backdrop), and a key pressed anywhere. *)

Record modal : Type := Modal {
  classList : gset string;
  aria_hidden : option string
}.

Definition openModal (m : modal) : modal :=
  Modal ({["open"]} ∪ classList m) (Some "false").

Definition closeModal (m : modal) : modal :=
  Modal (classList m ∖ {["open"]}) (Some "true").

Inductive modalEvent : Type :=
| ClickOpenRef
| ClickCloseRef
| ClickInModal (targetIsModal : bool)
| Keydown (key : string).

Definition modalStep (m : modal) (e : modalEvent) : modal :=
  match e with
  | ClickOpenRef => openModal m
  | ClickCloseRef => closeModal m
  | ClickInModal targetIsModal => if targetIsModal then closeModal m else m
  | Keydown key =>
      if String.eqb key "Escape" && bool_decide ("open" ∈ classList m)
      then closeModal m else m
  end.

Definition modalRun (events : list modalEvent) (m : modal) : modal :=
  fold_left modalStep events m.

(** The dialog shows exactly when it is not hidden from assistive
    technology. *)
Definition modalCoherent (m : modal) : Prop :=
  (("open" ∈ classList m) /\ aria_hidden m = Some "false")
  \/ (("open" ∉ classList m) /\ aria_hidden m = Some "true").

(** ** The order of the age bands *)

Definition bandRank (band : value) : nat :=
  if strictEq band (VStr "lt30") then 0
  else if strictEq band (VStr "30-39") then 1
  else if strictEq band (VStr "40-49") then 2
  else if strictEq band (VStr "50-59") then 3
  else if strictEq band (VStr "60-69") then 4
  else 5.

(** ** An instance of the conversions, for evaluating examples

    A string of at most 15 decimal digits is read as that integer and the
    empty string as 0, as the language does; every other string is read as
    NaN here.  [NumberToString] prints NaN and stands in for the rest. *)

Definition digitOf (c : ascii) : option Z :=
  let n := Z.of_nat (nat_of_ascii c) in
  if ((48 <=? n) && (n <=? 57))%Z then Some (n - 48)%Z else None.

Fixpoint digitsValue (s : string) (acc : Z) : option Z :=
  match s with
  | EmptyString => Some acc
  | String c rest =>
      match digitOf c with
      | Some d => digitsValue rest (10 * acc + d)%Z
      | None => None
      end
  end.

Definition sampleStringToNumber (s : string) : number :=
  match digitsValue s 0 with
  | Some z =>
      if (String.length s <=? 15)%nat then of_uint63 (Uint63.of_Z z) else nan
  | None => nan
  end.

Definition sampleBuiltins : Builtins :=
  {| StringToNumber := sampleStringToNumber; NumberToString := fun _ => "NaN" |}.

(** ** The findings of the validation phase

    The flag that the guard on [sex], and the one on [symptom], pushes in the
    two scripts of part_000: names for the statements below. *)

Definition sexFlags (sex : value) : list flag :=
  if negb (truthy sex) || negb (includes sexes sex)
  then [Flag "bad" "Sex is required."] else [].

Definition symptomFlags (symptom : value) : list flag :=
  if negb (truthy symptom) || negb (includes symptoms symptom)
  then [Flag "bad" "Symptom selection is required."] else [].

(** * Properties *)

(** Order facts about binary64 comparisons, through their specification. *)

Section SpecOrder.

Lemma SFcompare_swap x y :
  SFcompare y x = option_map CompOpp (SFcompare x y).
Proof.
  destruct x as [sx|sx| |sx mx ex], y as [sy|sy| |sy my ey]; simpl;
    try (destruct sx); try (destruct sy); simpl; try reflexivity;
    rewrite (Z.compare_antisym ex ey); destruct (ex ?= ey)%Z; simpl;
    try reflexivity;
    change (Pos.compare_cont Eq my mx) with (Pos.compare my mx);
    change (Pos.compare_cont Eq mx my) with (Pos.compare mx my);
    rewrite (Pos.compare_antisym mx my); destruct (mx ?= my)%positive;
    reflexivity.
Qed.

Lemma SFleb_SFltb_false x y : SFleb x y = true -> SFltb y x = false.
Proof.
  unfold SFleb, SFltb. rewrite (SFcompare_swap x y).
  destruct (SFcompare x y) as [[ | | ]|]; simpl; congruence.
Qed.

Lemma SFltb_SFleb_false x y : SFltb x y = true -> SFleb y x = false.
Proof.
  unfold SFleb, SFltb. rewrite (SFcompare_swap x y).
  destruct (SFcompare x y) as [[ | | ]|]; simpl; congruence.
Qed.

Lemma SFleb_trans x y z :
  SFleb x y = true -> SFleb y z = true -> SFleb x z = true.
Proof.
  unfold SFleb.
  destruct x as [sx|sx| |sx mx ex], y as [sy|sy| |sy my ey],
           z as [sz|sz| |sz mz ez]; simpl;
    try (destruct sx); try (destruct sy); try (destruct sz); simpl;
    try congruence;
    change (Pos.compare_cont Eq) with Pos.compare;
    destruct (Z.compare_spec ex ey); simpl; try congruence;
    destruct (Z.compare_spec ey ez); simpl; try congruence;
    destruct (Z.compare_spec ex ez); simpl; try congruence; try lia;
    destruct (Pos.compare_spec mx my); simpl; try congruence;
    destruct (Pos.compare_spec my mz); simpl; try congruence;
    destruct (Pos.compare_spec mx mz); simpl; try congruence; lia.
Qed.

Lemma SFcompare_refl_finite x : SFfinite x = true -> SFcompare x x = Some Eq.
Proof.
  destruct x as [s|s| |s m e]; simpl; try congruence; intros _;
    destruct s; rewrite Z.compare_refl;
    change (Pos.compare_cont Eq m m) with (Pos.compare m m);
    rewrite Pos.compare_refl; reflexivity.
Qed.

Lemma SFltb_false_SFleb x y :
  SFfinite x = true -> SFfinite y = true ->
  SFltb x y = false -> SFleb y x = true.
Proof.
  unfold SFleb, SFltb. rewrite (SFcompare_swap x y).
  destruct x as [sx|sx| |sx mx ex], y as [sy|sy| |sy my ey]; simpl;
    try congruence; intros _ _;
    try (destruct sx); try (destruct sy); simpl; try congruence;
    destruct (ex ?= ey)%Z; simpl; try congruence;
    destruct (Pos.compare_cont Eq mx my); simpl; congruence.
Qed.

Lemma SFleb_false_SFltb x y :
  SFfinite x = true -> SFfinite y = true ->
  SFleb x y = false -> SFltb y x = true.
Proof.
  unfold SFleb, SFltb. rewrite (SFcompare_swap x y).
  destruct x as [sx|sx| |sx mx ex], y as [sy|sy| |sy my ey]; simpl;
    try congruence; intros _ _;
    try (destruct sx); try (destruct sy); simpl; try congruence;
    destruct (ex ?= ey)%Z; simpl; try congruence;
    destruct (Pos.compare_cont Eq mx my); simpl; congruence.
Qed.

Lemma SFltb_SFleb x y : SFltb x y = true -> SFleb x y = true.
Proof.
  unfold SFleb, SFltb. destruct (SFcompare x y) as [[ | | ]|]; congruence.
Qed.

Lemma SFleb_between_finite a x b :
  SFfinite a = true -> SFfinite b = true ->
  SFleb a x = true -> SFleb x b = true -> SFfinite x = true.
Proof.
  unfold SFleb.
  destruct a as [sa|sa| |sa ma ea], x as [sx|sx| |sx mx ex],
           b as [sb|sb| |sb mb eb]; simpl; try congruence;
    try (destruct sa); try (destruct sx); try (destruct sb); simpl;
    congruence.
Qed.

End SpecOrder.


(** The same facts on primitive floats. *)

Section FloatOrder.
Local Open Scope float_scope.

Lemma is_finite_spec x : is_finite x = SFfinite (Prim2SF x).
Proof.
  unfold is_finite, is_nan, is_infinity.
  rewrite !FloatAxioms.eqb_spec, FloatAxioms.abs_spec.
  destruct (Prim2SF x) as [s|s| |s m e]; try (destruct s; reflexivity);
    try reflexivity;
    unfold SFeqb; rewrite SFcompare_refl_finite by reflexivity; reflexivity.
Qed.

Lemma leb_trans x y z : (x <=? y) = true -> (y <=? z) = true -> (x <=? z) = true.
Proof. rewrite !FloatAxioms.leb_spec. apply SFleb_trans. Qed.

Lemma leb_ltb_false x y : (x <=? y) = true -> (y <? x) = false.
Proof. rewrite FloatAxioms.leb_spec, FloatAxioms.ltb_spec. apply SFleb_SFltb_false. Qed.

Lemma ltb_leb_false x y : (x <? y) = true -> (y <=? x) = false.
Proof. rewrite FloatAxioms.leb_spec, FloatAxioms.ltb_spec. apply SFltb_SFleb_false. Qed.

Lemma ltb_false_leb x y :
  is_finite x = true -> is_finite y = true -> (x <? y) = false -> (y <=? x) = true.
Proof. rewrite !is_finite_spec, FloatAxioms.leb_spec, FloatAxioms.ltb_spec. apply SFltb_false_SFleb. Qed.

Lemma leb_false_ltb x y :
  is_finite x = true -> is_finite y = true -> (x <=? y) = false -> (y <? x) = true.
Proof.
  rewrite !is_finite_spec, FloatAxioms.leb_spec, FloatAxioms.ltb_spec.
  apply SFleb_false_SFltb.
Qed.

Lemma ltb_leb x y : (x <? y) = true -> (x <=? y) = true.
Proof. rewrite FloatAxioms.leb_spec, FloatAxioms.ltb_spec. apply SFltb_SFleb. Qed.

Lemma leb_between_finite a x b :
  is_finite a = true -> is_finite b = true ->
  (a <=? x) = true -> (x <=? b) = true -> is_finite x = true.
Proof. rewrite !is_finite_spec, !FloatAxioms.leb_spec. apply SFleb_between_finite. Qed.

(** [c <= x] refutes [x < c'] for every [c' <= c], and [x <= c'] for every
    [c' < c]. *)
Lemma above_not_lt c c' x :
  (c' <=? c) = true -> (c <=? x) = true -> (x <? c') = false.
Proof. intros Hc Hx. apply leb_ltb_false. exact (leb_trans _ _ _ Hc Hx). Qed.

Lemma above_not_le c c' x :
  (c' <? c) = true -> (c <=? x) = true -> (x <=? c') = false.
Proof.
  intros Hc Hx. destruct (x <=? c') eqn:E; [|reflexivity].
  pose proof (leb_trans _ _ _ Hx E) as Hcc.
  rewrite (ltb_leb_false _ _ Hc) in Hcc. discriminate.
Qed.

End FloatOrder.

(** ** Age bands *)

Section AgeBands.
Local Open Scope float_scope.

Lemma getAgeBand_finite_ge30 a :
  is_finite a = true -> (30 <=? a) = true ->
  getAgeBand (VNum a) =
    if a <=? 39 then VStr "30-39"
    else if a <=? 49 then VStr "40-49"
    else if a <=? 59 then VStr "50-59"
    else if a <=? 69 then VStr "60-69"
    else VStr "70+".
Proof.
  intros Hf H30. unfold getAgeBand.
  rewrite Hf, (leb_ltb_false _ _ H30). reflexivity.
Qed.

Lemma getAgeBand_lt30 a :
  is_finite a = true -> (a <? 30) = true -> getAgeBand (VNum a) = VStr "lt30".
Proof. intros Hf Hlt. unfold getAgeBand. rewrite Hf, Hlt. reflexivity. Qed.

Lemma getAgeBand_30_39 a :
  (30 <=? a) = true -> (a <=? 39) = true -> getAgeBand (VNum a) = VStr "30-39".
Proof.
  intros Hlo Hhi.
  rewrite getAgeBand_finite_ge30, Hhi; auto.
  apply (leb_between_finite 30 a 39); auto.
Qed.

Lemma getAgeBand_40_49 a :
  (40 <=? a) = true -> (a <=? 49) = true -> getAgeBand (VNum a) = VStr "40-49".
Proof.
  intros Hlo Hhi.
  rewrite getAgeBand_finite_ge30.
  - rewrite (above_not_le 40 39 a), Hhi; auto.
  - apply (leb_between_finite 40 a 49); auto.
  - apply (leb_trans 30 40 a); auto.
Qed.

Lemma getAgeBand_50_59 a :
  (50 <=? a) = true -> (a <=? 59) = true -> getAgeBand (VNum a) = VStr "50-59".
Proof.
  intros Hlo Hhi.
  rewrite getAgeBand_finite_ge30.
  - rewrite (above_not_le 50 39 a), (above_not_le 50 49 a), Hhi; auto.
  - apply (leb_between_finite 50 a 59); auto.
  - apply (leb_trans 30 50 a); auto.
Qed.

Lemma getAgeBand_60_69 a :
  (60 <=? a) = true -> (a <=? 69) = true -> getAgeBand (VNum a) = VStr "60-69".
Proof.
  intros Hlo Hhi.
  rewrite getAgeBand_finite_ge30.
  - rewrite (above_not_le 60 39 a), (above_not_le 60 49 a),
      (above_not_le 60 59 a), Hhi; auto.
  - apply (leb_between_finite 60 a 69); auto.
  - apply (leb_trans 30 60 a); auto.
Qed.

Lemma getAgeBand_70_up a :
  is_finite a = true -> (70 <=? a) = true -> getAgeBand (VNum a) = VStr "70+".
Proof.
  intros Hf Hlo.
  rewrite getAgeBand_finite_ge30; auto.
  - rewrite (above_not_le 70 39 a), (above_not_le 70 49 a),
      (above_not_le 70 59 a), (above_not_le 70 69 a); auto.
  - apply (leb_trans 30 70 a); auto.
Qed.

Lemma getAgeBand_not_finite a :
  is_finite a = false -> getAgeBand (VNum a) = VNull.
Proof. intros Hf. unfold getAgeBand. rewrite Hf. reflexivity. Qed.

(** Whatever the argument, the answer is null or one of six keys. *)
Lemma getAgeBand_range ageYears :
  getAgeBand ageYears = VNull \/
  getAgeBand ageYears = VStr "lt30" \/
  exists band, In band tableBands /\ getAgeBand ageYears = VStr band.
Proof.
  unfold getAgeBand, tableBands.
  destruct ageYears as [ | | b | a | s]; auto.
  destruct (is_finite a); simpl; auto.
  destruct (a <? 30); auto.
  right; right.
  destruct (a <=? 39); [eexists; split; [|reflexivity]; simpl; auto|].
  destruct (a <=? 49); [eexists; split; [|reflexivity]; simpl; auto|].
  destruct (a <=? 59); [eexists; split; [|reflexivity]; simpl; auto|].
  destruct (a <=? 69); eexists; (split; [|reflexivity]); simpl; auto 6.
Qed.

Lemma getAgeBand_not_finite_inv a :
  getAgeBand (VNum a) = VNull <-> is_finite a = false.
Proof.
  split; [|apply getAgeBand_not_finite].
  unfold getAgeBand. destruct (is_finite a); simpl; [|reflexivity].
  repeat match goal with
         | |- (if ?c then _ else _) = _ -> _ => destruct c
         end; discriminate.
Qed.

(** A band is reported only for a finite Number. *)
Lemma getAgeBand_null_iff ageYears :
  getAgeBand ageYears = VNull <-> Number_isFinite ageYears = false.
Proof.
  unfold getAgeBand, Number_isFinite.
  destruct ageYears as [ | | b | a | s]; try tauto.
  destruct (is_finite a); simpl; [|tauto].
  split; [|discriminate].
  destruct (a <? 30); [discriminate|].
  destruct (a <=? 39); [discriminate|].
  destruct (a <=? 49); [discriminate|].
  destruct (a <=? 59); [discriminate|].
  destruct (a <=? 69); discriminate.
Qed.

(** The six bands as intervals of the finite ages: below 30, [30,39], and
    then each band from just above the previous bound up to its own. *)
Remark getAgeBand_intervals a :
  is_finite a = true ->
  (getAgeBand (VNum a) = VStr "lt30" <-> (a <? 30) = true) /\
  (getAgeBand (VNum a) = VStr "30-39" <-> (30 <=? a) = true /\ (a <=? 39) = true) /\
  (getAgeBand (VNum a) = VStr "40-49" <-> (39 <? a) = true /\ (a <=? 49) = true) /\
  (getAgeBand (VNum a) = VStr "50-59" <-> (49 <? a) = true /\ (a <=? 59) = true) /\
  (getAgeBand (VNum a) = VStr "60-69" <-> (59 <? a) = true /\ (a <=? 69) = true) /\
  (getAgeBand (VNum a) = VStr "70+" <-> (69 <? a) = true).
Proof.
  intros Hf.
  assert (forall c, is_finite c = true -> (a <=? c) = false -> (c <? a) = true)
    as Hgt by (intros c Hc; apply leb_false_ltb; assumption).
  assert (forall c, (c <? a) = true -> (a <=? c) = false)
    as Hnle by (intros c; apply ltb_leb_false).
  assert (forall c, is_finite c = true -> (a <? c) = false -> (c <=? a) = true)
    as Hge by (intros c Hc; apply ltb_false_leb; assumption).
  assert (forall c, (30 <=? c) = true -> (c <? a) = true -> (a <? 30) = false)
    as Hnlt.
  { intros c Hc Hlt. apply (above_not_lt c 30 a Hc). apply ltb_leb, Hlt. }
  assert (forall c c', (c' <=? c) = true -> (c <? a) = true -> (a <=? c') = false)
    as Hnle'.
  { intros c c' Hc Hlt. destruct (a <=? c') eqn:E; [|reflexivity].
    pose proof (leb_trans _ _ _ E Hc) as Hac. rewrite (Hnle _ Hlt) in Hac.
    discriminate. }
  unfold getAgeBand. rewrite Hf. simpl.
  destruct (a <? 30) eqn:E30, (a <=? 39) eqn:E39, (a <=? 49) eqn:E49,
           (a <=? 59) eqn:E59, (a <=? 69) eqn:E69;
    repeat split; intros;
    repeat match goal with Hc : _ /\ _ |- _ => destruct Hc end;
    try discriminate; try reflexivity; try assumption;
    try (apply Hge; [reflexivity | assumption]);
    try (apply Hgt; [reflexivity | assumption]);
    exfalso;
    repeat match goal with
           | Hlo : (30 <=? a) = true |- _ =>
               pose proof (leb_ltb_false _ _ Hlo); clear Hlo
           | Hlt : (?c <? a) = true |- _ =>
               pose proof (Hnlt c eq_refl Hlt);
               pose proof (Hnle c Hlt);
               try pose proof (Hnle' c 39 eq_refl Hlt);
               try pose proof (Hnle' c 49 eq_refl Hlt);
               try pose proof (Hnle' c 59 eq_refl Hlt);
               clear Hlt
           end;
    congruence.
Qed.

End AgeBands.

(** C4: [getAgeBand] sends every finite age below 30 to lt30, the ages of
    [30,39], [40,49], [50,59] and [60,69] to the band of that name, every
    finite age from 70 on to 70+, and every Number that is not finite to null.
    From 30 on the thresholds leave no gap: a finite age of at least 30,
    integer or not, gets exactly one of the five table bands (39.5 gets
    40-49).  29.9 is written as the binary64 value nearest to it. *)
Theorem getAgeBand_bands (a : number) :
  (is_finite a = true -> (a <? 30)%float = true -> getAgeBand (VNum a) = VStr "lt30") /\
  ((30 <=? a)%float = true -> (a <=? 39)%float = true -> getAgeBand (VNum a) = VStr "30-39") /\
  ((40 <=? a)%float = true -> (a <=? 49)%float = true -> getAgeBand (VNum a) = VStr "40-49") /\
  ((50 <=? a)%float = true -> (a <=? 59)%float = true -> getAgeBand (VNum a) = VStr "50-59") /\
  ((60 <=? a)%float = true -> (a <=? 69)%float = true -> getAgeBand (VNum a) = VStr "60-69") /\
  (is_finite a = true -> (70 <=? a)%float = true -> getAgeBand (VNum a) = VStr "70+") /\
  (is_finite a = false -> getAgeBand (VNum a) = VNull) /\
  (is_finite a = true -> (30 <=? a)%float = true ->
     exists band,
       (In band tableBands /\ getAgeBand (VNum a) = VStr band) /\
       forall other, getAgeBand (VNum a) = VStr other -> other = band) /\
  getAgeBand (VNum nan) = VNull /\
  getAgeBand (VNum infinity) = VNull /\
  getAgeBand (VNum 0x1.de66666666666p+4) = VStr "lt30" /\
  getAgeBand (VNum 39.5) = VStr "40-49" /\
  getAgeBand (VNum 70) = VStr "70+".
Proof.
  repeat match goal with |- _ /\ _ => split end;
    try (vm_compute; reflexivity).
  - apply getAgeBand_lt30.
  - apply getAgeBand_30_39.
  - apply getAgeBand_40_49.
  - apply getAgeBand_50_59.
  - apply getAgeBand_60_69.
  - apply getAgeBand_70_up.
  - apply getAgeBand_not_finite.
  - intros Hf H30.
    destruct (getAgeBand_range (VNum a)) as [E | [E | (band & Hin & E)]].
    + rewrite getAgeBand_not_finite_inv in E; congruence.
    + rewrite getAgeBand_finite_ge30 in E by assumption.
      repeat match type of E with
             | (if ?c then _ else _) = _ => destruct c
             end; discriminate.
    + exists band. split; [split; assumption|].
      intros other E'. congruence.
Qed.

(** ** Valid sexes and symptoms *)

Section Validity.

Lemma includes_sexes v :
  includes sexes v = true <-> v = VStr "men" \/ v = VStr "women".
Proof.
  unfold includes, sexes. destruct v as [ | | b | n | s]; simpl;
    try (split; [discriminate | intros [E | E]; discriminate]).
  rewrite orb_false_r, orb_true_iff, !String.eqb_eq.
  split; intros [E | E]; (left + right); congruence.
Qed.

Lemma includes_symptoms v :
  includes symptoms v = true <-> v = VStr "chestPain" \/ v = VStr "dyspnea".
Proof.
  unfold includes, symptoms. destruct v as [ | | b | n | s]; simpl;
    try (split; [discriminate | intros [E | E]; discriminate]).
  rewrite orb_false_r, orb_true_iff, !String.eqb_eq.
  split; intros [E | E]; (left + right); congruence.
Qed.

(** A listed value is truthy, so the guard [!v || !list.includes(v)] is the
    membership test alone. *)
Lemma guard_sexes v :
  negb (truthy v) || negb (includes sexes v) = negb (includes sexes v).
Proof.
  destruct (includes sexes v) eqn:E; [|apply orb_true_r].
  apply includes_sexes in E as [-> | ->]; reflexivity.
Qed.

Lemma guard_symptoms v :
  negb (truthy v) || negb (includes symptoms v) = negb (includes symptoms v).
Proof.
  destruct (includes symptoms v) eqn:E; [|apply orb_true_r].
  apply includes_symptoms in E as [-> | ->]; reflexivity.
Qed.

Lemma includes_sexes_false v :
  v <> VStr "men" -> v <> VStr "women" -> includes sexes v = false.
Proof.
  intros H1 H2. destruct (includes sexes v) eqn:E; [|reflexivity].
  apply includes_sexes in E as [E | E]; contradiction.
Qed.

Lemma includes_symptoms_false v :
  v <> VStr "chestPain" -> v <> VStr "dyspnea" -> includes symptoms v = false.
Proof.
  intros H1 H2. destruct (includes symptoms v) eqn:E; [|reflexivity].
  apply includes_symptoms in E as [E | E]; contradiction.
Qed.

End Validity.

(** ** The table *)

Section TableFacts.
Context `{Builtins}.

Lemma table_total symptom sex band :
  In symptom symptoms -> In sex sexes -> In band tableBands ->
  exists ptp, lookupPTP PTP_TABLE symptom sex (VStr band) = Some ptp
              /\ (0 <= ptp <= 100)%Z.
Proof.
  unfold symptoms, sexes, tableBands. simpl.
  intros Hy Hs Hb.
  repeat match goal with
         | H : _ \/ _ |- _ => destruct H as [H | H]
         | H : False |- _ => destruct H
         end; subst; eexists; (split; [vm_compute; reflexivity | lia]).
Qed.

Lemma table_lt30 symptom sex :
  In symptom symptoms -> In sex sexes ->
  lookupPTP PTP_TABLE symptom sex (VStr "lt30") = None.
Proof.
  unfold symptoms, sexes. simpl. intros Hy Hs.
  repeat match goal with
         | H : _ \/ _ |- _ => destruct H as [H | H]
         | H : False |- _ => destruct H
         end; subst; vm_compute; reflexivity.
Qed.

End TableFacts.

(** ** The resolver of the first script of part_000 *)

Section DetailedResolver.
Context `{Builtins}.

Lemma sexFlags_valid sex : In sex sexes -> sexFlags sex = [].
Proof.
  unfold sexes. simpl. intros [<- | [<- | []]]; reflexivity.
Qed.

Lemma symptomFlags_valid symptom : In symptom symptoms -> symptomFlags symptom = [].
Proof.
  unfold symptoms. simpl. intros [<- | [<- | []]]; reflexivity.
Qed.

Lemma sexFlags_cases sex :
  (In sex sexes /\ sexFlags sex = []) \/
  (~ In sex sexes /\ sexFlags sex = [Flag "bad" "Sex is required."]).
Proof.
  unfold sexFlags. rewrite guard_sexes.
  destruct (includes sexes sex) eqn:E; [left | right]; (split; [|reflexivity]).
  - apply includes_sexes in E. unfold sexes. simpl. intuition.
  - intros Hin. unfold sexes in Hin. simpl in Hin.
    assert (includes sexes sex = true) by (apply includes_sexes; intuition).
    congruence.
Qed.

Lemma symptomFlags_cases symptom :
  (In symptom symptoms /\ symptomFlags symptom = []) \/
  (~ In symptom symptoms
   /\ symptomFlags symptom = [Flag "bad" "Symptom selection is required."]).
Proof.
  unfold symptomFlags. rewrite guard_symptoms.
  destruct (includes symptoms symptom) eqn:E; [left | right]; (split; [|reflexivity]).
  - apply includes_symptoms in E. unfold symptoms. simpl. intuition.
  - intros Hin. unfold symptoms in Hin. simpl in Hin.
    assert (includes symptoms symptom = true) by (apply includes_symptoms; intuition).
    congruence.
Qed.

(** The three shapes of a call, by what [getAgeBand] answers. *)

Lemma detailed_null_age ageYears sex symptom :
  getAgeBand ageYears = VNull ->
  Detailed.calculatePretestProbability ageYears sex symptom =
    Detailed.Failure
      (Flag "bad" "Age is required and must be a number."
         :: sexFlags sex ++ symptomFlags symptom)
      VNull.
Proof.
  intros E. unfold Detailed.calculatePretestProbability, sexFlags, symptomFlags.
  rewrite E, guard_sexes, guard_symptoms.
  destruct (includes sexes sex), (includes symptoms symptom); reflexivity.
Qed.

Lemma detailed_lt30 ageYears sex symptom :
  getAgeBand ageYears = VStr "lt30" ->
  Detailed.calculatePretestProbability ageYears sex symptom =
    Detailed.Failure
      (Flag "warn" "Age <30: the provided figure table begins at 30–39. Result may not be applicable."
         :: (sexFlags sex ++ symptomFlags symptom)
         ++ match sexFlags sex ++ symptomFlags symptom with
            | [] => [Flag "bad" "No table value available for age <30 from the provided figure. Cannot compute."]
            | _ => []
            end)
      (VStr "lt30").
Proof.
  intros E. unfold Detailed.calculatePretestProbability, sexFlags, symptomFlags.
  rewrite E, guard_sexes, guard_symptoms.
  destruct (includes sexes sex), (includes symptoms symptom); reflexivity.
Qed.

Lemma detailed_band ageYears sex symptom band :
  In band tableBands ->
  getAgeBand ageYears = VStr band ->
  Detailed.calculatePretestProbability ageYears sex symptom =
    match sexFlags sex ++ symptomFlags symptom with
    | [] =>
        match lookupPTP PTP_TABLE symptom sex (VStr band) with
        | Some ptp =>
            Detailed.Success ptp (displayOf ptp) (categoryOf ptp) (VStr band) []
        | None =>
            Detailed.Failure
              [Flag "bad" "No matching table value found (check inputs)."]
              (VStr band)
        end
    | found => Detailed.Failure found (VStr band)
    end.
Proof.
  intros Hin E. unfold Detailed.calculatePretestProbability, sexFlags, symptomFlags.
  rewrite E, guard_sexes, guard_symptoms.
  assert (truthy (VStr band) = true /\ strictEq (VStr band) (VStr "lt30") = false)
    as [-> ->].
  { unfold tableBands in Hin. simpl in Hin.
    repeat destruct Hin as [<- | Hin]; try (split; reflexivity). destruct Hin. }
  destruct (includes sexes sex), (includes symptoms symptom); reflexivity.
Qed.

(** Every call is one of these, with the outcome spelled out. *)
Lemma detailed_outcome ageYears sex symptom :
  let found := sexFlags sex ++ symptomFlags symptom in
  let r := Detailed.calculatePretestProbability ageYears sex symptom in
  (getAgeBand ageYears = VNull
   /\ r = Detailed.Failure
            (Flag "bad" "Age is required and must be a number." :: found) VNull)
  \/ (getAgeBand ageYears = VStr "lt30" /\ found <> []
      /\ r = Detailed.Failure
               (Flag "warn" "Age <30: the provided figure table begins at 30–39. Result may not be applicable."
                  :: found) (VStr "lt30"))
  \/ (getAgeBand ageYears = VStr "lt30" /\ found = []
      /\ r = Detailed.Failure
               [Flag "warn" "Age <30: the provided figure table begins at 30–39. Result may not be applicable.";
                Flag "bad" "No table value available for age <30 from the provided figure. Cannot compute."]
               (VStr "lt30"))
  \/ (exists band, In band tableBands /\ getAgeBand ageYears = VStr band
      /\ found <> [] /\ r = Detailed.Failure found (VStr band))
  \/ (exists band ptp, In band tableBands /\ getAgeBand ageYears = VStr band
      /\ found = [] /\ In sex sexes /\ In symptom symptoms
      /\ lookupPTP PTP_TABLE symptom sex (VStr band) = Some ptp
      /\ r = Detailed.Success ptp (displayOf ptp) (categoryOf ptp) (VStr band) []).
Proof.
  cbv zeta.
  destruct (getAgeBand_range ageYears) as [E | [E | (band & Hin & E)]].
  - left. split; [assumption|]. apply detailed_null_age; assumption.
  - rewrite (detailed_lt30 _ sex symptom E).
    destruct (sexFlags sex ++ symptomFlags symptom) as [|f fl] eqn:Ef.
    + right; right; left. auto.
    + right; left. repeat split; [assumption | discriminate |].
      rewrite app_nil_r. reflexivity.
  - rewrite (detailed_band _ sex symptom band Hin E).
    do 3 right.
    destruct (sexFlags sex ++ symptomFlags symptom) as [|f fl] eqn:Ef.
    + right. apply app_eq_nil in Ef as [Es Ey].
      assert (In sex sexes) as Hs
        by (destruct (sexFlags_cases sex) as [[? _] | [_ E']]; [assumption | congruence]).
      assert (In symptom symptoms) as Hy
        by (destruct (symptomFlags_cases symptom) as [[? _] | [_ E']];
            [assumption | congruence]).
      destruct (table_total symptom sex band Hy Hs Hin) as (ptp & Hp & _).
      exists band, ptp. rewrite Hp. auto 10.
    + left. exists band. repeat split; [assumption | assumption | discriminate].
Qed.

End DetailedResolver.

(** ** The resolver of the second script of part_000 *)

Section Build4Resolver.
Context `{Builtins}.

Lemma build4_null_age ageYears sex symptom :
  getAgeBand ageYears = VNull ->
  Build4.calculatePretestProbability ageYears sex symptom =
    Build4.Failure
      (Flag "bad" "Age is required and must be a number."
         :: sexFlags sex ++ symptomFlags symptom).
Proof.
  intros E. unfold Build4.calculatePretestProbability, sexFlags, symptomFlags.
  rewrite E, guard_sexes, guard_symptoms.
  destruct (includes sexes sex), (includes symptoms symptom); reflexivity.
Qed.

Lemma build4_lt30 ageYears sex symptom :
  getAgeBand ageYears = VStr "lt30" ->
  Build4.calculatePretestProbability ageYears sex symptom =
    Build4.Failure
      (Flag "warn" "Age <30: figure table begins at 30–39; not applicable."
         :: (sexFlags sex ++ symptomFlags symptom)
         ++ match sexFlags sex ++ symptomFlags symptom with
            | [] => [Flag "bad" "No table value for age <30 from the provided figure."]
            | _ => []
            end).
Proof.
  intros E. unfold Build4.calculatePretestProbability, sexFlags, symptomFlags.
  rewrite E, guard_sexes, guard_symptoms.
  destruct (includes sexes sex), (includes symptoms symptom); reflexivity.
Qed.

Lemma build4_band ageYears sex symptom band :
  In band tableBands ->
  getAgeBand ageYears = VStr band ->
  Build4.calculatePretestProbability ageYears sex symptom =
    match sexFlags sex ++ symptomFlags symptom with
    | [] =>
        match lookupPTP PTP_TABLE symptom sex (VStr band) with
        | Some ptp => Build4.Success (displayOf ptp) (categoryOf ptp) []
        | None => Build4.Failure [Flag "bad" "No matching table value found."]
        end
    | found => Build4.Failure found
    end.
Proof.
  intros Hin E. unfold Build4.calculatePretestProbability, sexFlags, symptomFlags.
  rewrite E, guard_sexes, guard_symptoms.
  assert (truthy (VStr band) = true /\ strictEq (VStr band) (VStr "lt30") = false)
    as [-> ->].
  { unfold tableBands in Hin. simpl in Hin.
    repeat destruct Hin as [<- | Hin]; try (split; reflexivity). destruct Hin. }
  destruct (includes sexes sex), (includes symptoms symptom); reflexivity.
Qed.

(** A success of this script carries no flag. *)
Lemma build4_success_flags ageYears sex symptom display category fl :
  Build4.calculatePretestProbability ageYears sex symptom
    = Build4.Success display category fl ->
  fl = [].
Proof.
  destruct (getAgeBand_range ageYears) as [E | [E | (band & Hin & E)]].
  - rewrite (build4_null_age _ _ _ E). discriminate.
  - rewrite (build4_lt30 _ _ _ E). discriminate.
  - rewrite (build4_band _ _ _ _ Hin E).
    destruct (sexFlags sex ++ symptomFlags symptom); [|discriminate].
    destruct (lookupPTP PTP_TABLE symptom sex (VStr band)); [|discriminate].
    congruence.
Qed.

End Build4Resolver.

(** ** The resolver of script.js *)

Section ScriptResolver.
Context `{Builtins}.

(** This script never reports a flag. *)
Lemma script_flags_nil ageYears sex symptom :
  Script.flags (Script.calculatePretestProbability ageYears sex symptom) = [].
Proof.
  unfold Script.calculatePretestProbability.
  destruct (negb (truthy (getAgeBand ageYears)) || negb (truthy sex)
            || negb (truthy symptom)); [reflexivity|].
  destruct (lookupPTP PTP_TABLE symptom sex (getAgeBand ageYears)); reflexivity.
Qed.

Lemma script_success_flags ageYears sex symptom display category fl :
  Script.calculatePretestProbability ageYears sex symptom
    = Script.Success display category fl ->
  fl = [].
Proof.
  intros E. pose proof (script_flags_nil ageYears sex symptom) as Hn.
  rewrite E in Hn. exact Hn.
Qed.

(** On a valid triple it agrees with the other two on display and category. *)
Lemma script_valid_triple ageYears sex symptom band :
  In band tableBands -> getAgeBand ageYears = VStr band ->
  In sex sexes -> In symptom symptoms ->
  exists ptp,
    lookupPTP PTP_TABLE symptom sex (VStr band) = Some ptp /\
    Script.calculatePretestProbability ageYears sex symptom =
      Script.Success (displayOf ptp) (categoryOf ptp) [].
Proof.
  intros Hb E Hs Hy.
  destruct (table_total symptom sex band Hy Hs Hb) as (ptp & Hp & _).
  exists ptp. split; [assumption|].
  unfold Script.calculatePretestProbability. rewrite E, Hp.
  assert (truthy (VStr band) = true) as ->.
  { unfold tableBands in Hb. simpl in Hb.
    repeat destruct Hb as [<- | Hb]; try reflexivity. destruct Hb. }
  assert (truthy sex = true) as ->.
  { unfold sexes in Hs. simpl in Hs. destruct Hs as [<- | [<- | []]]; reflexivity. }
  assert (truthy symptom = true) as ->.
  { unfold symptoms in Hy. simpl in Hy. destruct Hy as [<- | [<- | []]]; reflexivity. }
  reflexivity.
Qed.

End ScriptResolver.

(** ** What the resolver guarantees *)

Section ResolverClaims.
Context `{Builtins}.

(** C1: on a valid triple (an age whose band is neither null nor lt30, a
    sex among men and women, a symptom among chestPain and dyspnea) the
    resolver succeeds with the percent of the table, the display "≤", the
    percent in decimal, "%", the category low up to 15 and intermediateHigh
    above, and the band of the age.  Age 45, men, chestPain gives 22 and
    intermediateHigh; age 35, women, dyspnea gives 3 and low. *)
Theorem detailed_valid_triple :
  (forall ageYears sex symptom,
      getAgeBand ageYears <> VNull ->
      getAgeBand ageYears <> VStr "lt30" ->
      In sex sexes -> In symptom symptoms ->
      exists band ptp,
        getAgeBand ageYears = VStr band /\
        lookupPTP PTP_TABLE symptom sex (VStr band) = Some ptp /\
        Detailed.calculatePretestProbability ageYears sex symptom =
          Detailed.Success ptp ("≤" ++ decimal ptp ++ "%")%string
            (if (ptp <=? 15)%Z then "low" else "intermediateHigh")
            (VStr band) []) /\
  Detailed.calculatePretestProbability (VNum 45) (VStr "men") (VStr "chestPain") =
    Detailed.Success 22 "≤22%" "intermediateHigh" (VStr "40-49") [] /\
  Detailed.calculatePretestProbability (VNum 35) (VStr "women") (VStr "dyspnea") =
    Detailed.Success 3 "≤3%" "low" (VStr "30-39") [].
Proof.
  split; [|split; vm_compute; reflexivity].
  intros ageYears sex symptom Hnull Hlt Hs Hy.
  destruct (detailed_outcome ageYears sex symptom)
    as [[E _] | [(E & _) | [(E & _) | [(band & _ & _ & Hne & _)
        | (band & ptp & _ & E & _ & _ & _ & Hp & Hr)]]]]; try contradiction.
  - rewrite (sexFlags_valid _ Hs), (symptomFlags_valid _ Hy) in Hne.
    now destruct Hne.
  - exists band, ptp. auto.
Qed.

(** C3: validation does not stop at the first finding.  A failure carries
    the flag of every check that applies: bad for an age that is not a
    finite number, warn for an age below 30, bad for a sex outside the list,
    bad for a symptom outside the list.  With age 50 and symptom dyspnea, any
    sex outside the list gives a failure with the bad flag on sex, and so
    does any other age and symptom. *)
Theorem detailed_flags_accumulate :
  (forall ageYears sex symptom fl band,
      Detailed.calculatePretestProbability ageYears sex symptom
        = Detailed.Failure fl band ->
      (getAgeBand ageYears = VNull ->
         In (Flag "bad" "Age is required and must be a number.") fl) /\
      (getAgeBand ageYears = VStr "lt30" ->
         In (Flag "warn" "Age <30: the provided figure table begins at 30–39. Result may not be applicable.") fl) /\
      (~ In sex sexes -> In (Flag "bad" "Sex is required.") fl) /\
      (~ In symptom symptoms ->
         In (Flag "bad" "Symptom selection is required.") fl)) /\
  (forall ageYears sex symptom,
      ~ In sex sexes ->
      exists fl band,
        Detailed.calculatePretestProbability ageYears sex symptom
          = Detailed.Failure fl band
        /\ In (Flag "bad" "Sex is required.") fl) /\
  (forall sex,
      ~ In sex sexes ->
      Detailed.calculatePretestProbability (VNum 50) sex (VStr "dyspnea") =
        Detailed.Failure [Flag "bad" "Sex is required."] (VStr "50-59")) /\
  Detailed.calculatePretestProbability VUndefined VUndefined VUndefined =
    Detailed.Failure
      [Flag "bad" "Age is required and must be a number.";
       Flag "bad" "Sex is required.";
       Flag "bad" "Symptom selection is required."] VNull.
Proof.
  split; [|split; [|split; [|vm_compute; reflexivity]]].
  - intros ageYears sex symptom fl band Hr.
    assert (forall f, In f (sexFlags sex ++ symptomFlags symptom) -> In f fl) as Hsub.
    { destruct (detailed_outcome ageYears sex symptom)
        as [[_ E] | [(_ & _ & E) | [(_ & Ef & E) | [(b & _ & _ & _ & E)
            | (b & ptp & _ & _ & _ & _ & _ & _ & E)]]]];
        rewrite E in Hr; inversion Hr; subst; clear Hr; simpl; auto.
      rewrite Ef. simpl. tauto. }
    repeat split.
    + intros E. rewrite (detailed_null_age _ sex symptom E) in Hr.
      inversion Hr. simpl. auto.
    + intros E. rewrite (detailed_lt30 _ sex symptom E) in Hr.
      inversion Hr. simpl. auto.
    + intros Hs. apply Hsub, in_or_app. left.
      destruct (sexFlags_cases sex) as [[? _] | [_ ->]]; [contradiction|].
      simpl. auto.
    + intros Hy. apply Hsub, in_or_app. right.
      destruct (symptomFlags_cases symptom) as [[? _] | [_ ->]]; [contradiction|].
      simpl. auto.
  - intros ageYears sex symptom Hs.
    assert (In (Flag "bad" "Sex is required.")
              (sexFlags sex ++ symptomFlags symptom)) as Hin.
    { apply in_or_app. left.
      destruct (sexFlags_cases sex) as [[? _] | [_ ->]]; [contradiction|].
      simpl. auto. }
    destruct (detailed_outcome ageYears sex symptom)
      as [[_ E] | [(_ & _ & E) | [(_ & Ef & E) | [(b & _ & _ & _ & E)
          | (b & ptp & _ & _ & Ef & _)]]]];
      try (rewrite Ef in Hin; destruct Hin);
      rewrite E; do 2 eexists; (split; [reflexivity|]); simpl; auto.
  - intros sex Hs.
    rewrite (detailed_band (VNum 50) sex (VStr "dyspnea") "50-59");
      [| unfold tableBands; simpl; auto | vm_compute; reflexivity].
    destruct (sexFlags_cases sex) as [[? _] | [_ ->]]; [contradiction|].
    reflexivity.
Qed.

(** C5: a finite age below 30 with a valid sex and symptom gets the warn
    flag on the range of the table and then a failure whose flags hold the
    bad flag saying that the table has no value below 30; so does age 25,
    men, chestPain. *)
Theorem detailed_below_30 :
  (forall a sex symptom,
      is_finite a = true -> (a <? 30)%float = true ->
      In sex sexes -> In symptom symptoms ->
      Detailed.calculatePretestProbability (VNum a) sex symptom =
        Detailed.Failure
          [Flag "warn" "Age <30: the provided figure table begins at 30–39. Result may not be applicable.";
           Flag "bad" "No table value available for age <30 from the provided figure. Cannot compute."]
          (VStr "lt30")) /\
  Detailed.calculatePretestProbability (VNum 25) (VStr "men") (VStr "chestPain") =
    Detailed.Failure
      [Flag "warn" "Age <30: the provided figure table begins at 30–39. Result may not be applicable.";
       Flag "bad" "No table value available for age <30 from the provided figure. Cannot compute."]
      (VStr "lt30").
Proof.
  split; [|vm_compute; reflexivity].
  intros a sex symptom Hf Hlt Hs Hy.
  rewrite (detailed_lt30 (VNum a) sex symptom (getAgeBand_lt30 a Hf Hlt)).
  rewrite (sexFlags_valid _ Hs), (symptomFlags_valid _ Hy). reflexivity.
Qed.

(** C7: a success never comes with a flag of level bad, in any of the three
    scripts. *)
Theorem success_without_bad_flag ageYears sex symptom :
  (forall ptp display category band fl,
      Detailed.calculatePretestProbability ageYears sex symptom
        = Detailed.Success ptp display category band fl ->
      forall f, In f fl -> level f <> "bad") /\
  (forall display category fl,
      Build4.calculatePretestProbability ageYears sex symptom
        = Build4.Success display category fl ->
      forall f, In f fl -> level f <> "bad") /\
  (forall display category fl,
      Script.calculatePretestProbability ageYears sex symptom
        = Script.Success display category fl ->
      forall f, In f fl -> level f <> "bad").
Proof.
  repeat split.
  - intros ptp display category band fl Hr f Hin.
    destruct (detailed_outcome ageYears sex symptom)
      as [[_ E] | [(_ & _ & E) | [(_ & _ & E) | [(b & _ & _ & _ & E)
          | (b & p & _ & _ & _ & _ & _ & _ & E)]]]];
      rewrite E in Hr; try discriminate.
    inversion Hr; subst. destruct Hin.
  - intros display category fl Hr f Hin.
    rewrite (build4_success_flags _ _ _ _ _ _ Hr) in Hin. destruct Hin.
  - intros display category fl Hr f Hin.
    rewrite (script_success_flags _ _ _ _ _ _ Hr) in Hin. destruct Hin.
Qed.

(** C9: when the age is a finite number, a failure still reports the band
    of that age next to its flags. *)
Theorem detailed_failure_reports_band ageYears sex symptom fl band :
  Number_isFinite ageYears = true ->
  Detailed.calculatePretestProbability ageYears sex symptom
    = Detailed.Failure fl band ->
  band = getAgeBand ageYears /\
  (band = VStr "lt30" \/ exists b, In b tableBands /\ band = VStr b).
Proof.
  intros Hf Hr.
  assert (getAgeBand ageYears <> VNull) as Hnn
    by (rewrite getAgeBand_null_iff; congruence).
  destruct (detailed_outcome ageYears sex symptom)
    as [[E _] | [(Eb & _ & E) | [(Eb & _ & E) | [(b & Hb & Eb & _ & E)
        | (b & p & _ & _ & _ & _ & _ & _ & E)]]]];
    try contradiction; rewrite E in Hr; inversion Hr; subst; clear Hr;
    rewrite Eb; split; eauto.
Qed.

(** C10: the flag list of a success is empty, in any of the three scripts:
    the only flag that is not bad, the warn on an age below 30, is pushed
    only on calls that end in a failure. *)
Theorem success_flags_empty ageYears sex symptom :
  (forall ptp display category band fl,
      Detailed.calculatePretestProbability ageYears sex symptom
        = Detailed.Success ptp display category band fl ->
      fl = []) /\
  (forall display category fl,
      Build4.calculatePretestProbability ageYears sex symptom
        = Build4.Success display category fl ->
      fl = []) /\
  (forall display category fl,
      Script.calculatePretestProbability ageYears sex symptom
        = Script.Success display category fl ->
      fl = []) /\
  (getAgeBand ageYears = VStr "lt30" ->
     Detailed.ok (Detailed.calculatePretestProbability ageYears sex symptom) = false).
Proof.
  repeat split.
  - intros ptp display category band fl Hr.
    destruct (detailed_outcome ageYears sex symptom)
      as [[_ E] | [(_ & _ & E) | [(_ & _ & E) | [(b & _ & _ & _ & E)
          | (b & p & _ & _ & _ & _ & _ & _ & E)]]]];
      rewrite E in Hr; try discriminate.
    inversion Hr; reflexivity.
  - intros display category fl. apply build4_success_flags.
  - intros display category fl. apply script_success_flags.
  - intros E. rewrite (detailed_lt30 _ sex symptom E). reflexivity.
Qed.

End ResolverClaims.

(** ** CAC buckets *)

Section CacClaims.
Context `{Builtins}.
Local Open Scope float_scope.

Lemma strictEq_null v : strictEq v VNull = true <-> v = VNull.
Proof. destruct v; simpl; split; congruence. Qed.

Lemma strictEq_undefined v : strictEq v VUndefined = true <-> v = VUndefined.
Proof. destruct v; simpl; split; congruence. Qed.

Lemma strictEq_empty v : strictEq v (VStr "") = true <-> v = VStr "".
Proof.
  destruct v as [ | | b | n | s]; simpl; try (split; congruence).
  rewrite String.eqb_eq. split; congruence.
Qed.

(** The two scripts with three buckets run the same tests on [Number(cacScore)]. *)

Lemma three_buckets_low n :
  (0 <=? n) = true -> (n <=? 99) = true ->
  negb (is_finite n) || (n <? 0) = false /\ (n <=? 99) = true.
Proof.
  intros Hlo Hhi.
  rewrite (leb_between_finite 0 n 99), (leb_ltb_false _ _ Hlo); auto.
Qed.

Lemma three_buckets_mid n :
  (100 <=? n) = true -> (n <=? 999) = true ->
  negb (is_finite n) || (n <? 0) = false /\ (n <=? 99) = false
  /\ (n <=? 999) = true.
Proof.
  intros Hlo Hhi.
  rewrite (leb_between_finite 100 n 999), (above_not_lt 100 0 n),
    (above_not_le 100 99 n); auto.
Qed.

Lemma three_buckets_high n :
  is_finite n = true -> (1000 <=? n) = true ->
  negb (is_finite n) || (n <? 0) = false /\ (n <=? 99) = false
  /\ (n <=? 999) = false.
Proof.
  intros Hf Hlo.
  rewrite Hf, (above_not_lt 1000 0 n), (above_not_le 1000 99 n),
    (above_not_le 1000 999 n); auto.
Qed.

(** C2: a score from 0 to 99 is classified low with range "≤15%", a score
    from 100 to 999 intermediateHigh with range ">15–50%", a finite score of
    1000 or more high with range ">50%"; 0 and 99 are low, 100 and 999
    intermediateHigh, 1000 high.  This holds in the two scripts with three
    buckets, for whatever input converts to the score. *)
Theorem three_bucket_classification (cacScore : value) :
  ((0 <=? Number cacScore) = true -> (Number cacScore <=? 99) = true ->
     Build4.interpretCAC cacScore = Build4.Range "≤15%" "low" /\
     Script.interpretCAC cacScore = Some (Script.CacRange "≤15%" "low")) /\
  ((100 <=? Number cacScore) = true -> (Number cacScore <=? 999) = true ->
     Build4.interpretCAC cacScore = Build4.Range ">15–50%" "intermediateHigh" /\
     Script.interpretCAC cacScore
       = Some (Script.CacRange ">15–50%" "intermediateHigh")) /\
  (is_finite (Number cacScore) = true -> (1000 <=? Number cacScore) = true ->
     Build4.interpretCAC cacScore = Build4.Range ">50%" "high" /\
     Script.interpretCAC cacScore = Some (Script.CacRange ">50%" "high")) /\
  (Build4.interpretCAC (VNum 0) = Build4.Range "≤15%" "low" /\
   Build4.interpretCAC (VNum 99) = Build4.Range "≤15%" "low" /\
   Build4.interpretCAC (VNum 100) = Build4.Range ">15–50%" "intermediateHigh" /\
   Build4.interpretCAC (VNum 999) = Build4.Range ">15–50%" "intermediateHigh" /\
   Build4.interpretCAC (VNum 1000) = Build4.Range ">50%" "high") /\
  (Script.interpretCAC (VNum 0) = Some (Script.CacRange "≤15%" "low") /\
   Script.interpretCAC (VNum 99) = Some (Script.CacRange "≤15%" "low") /\
   Script.interpretCAC (VNum 100)
     = Some (Script.CacRange ">15–50%" "intermediateHigh") /\
   Script.interpretCAC (VNum 999)
     = Some (Script.CacRange ">15–50%" "intermediateHigh") /\
   Script.interpretCAC (VNum 1000) = Some (Script.CacRange ">50%" "high")).
Proof.
  unfold Build4.interpretCAC, Script.interpretCAC.
  split; [|split; [|split; [|split; repeat split; vm_compute; reflexivity]]].
  - intros Hlo Hhi.
    destruct (three_buckets_low _ Hlo Hhi) as [-> ->]. split; reflexivity.
  - intros Hlo Hhi.
    destruct (three_buckets_mid _ Hlo Hhi) as (-> & -> & ->). split; reflexivity.
  - intros Hf Hlo.
    destruct (three_buckets_high _ Hf Hlo) as (-> & -> & ->). split; reflexivity.
Qed.

(** The four-bucket [interpretCAC] of the first script of part_000 tests the
    missing input itself: it answers null on the empty string, null and
    undefined; on any other input whose conversion is not finite or is
    negative, such as -1, it answers the failure marked bad, "Invalid CAC",
    and so neither null nor a success.  The CAC field reaches the PTP result
    nowhere: [onCalculate] hands over the same PTP result whatever the CAC
    field holds. *)
Theorem detailed_cac_invalid :
  (Detailed.interpretCAC (VStr "") = None /\
   Detailed.interpretCAC VNull = None /\
   Detailed.interpretCAC VUndefined = None) /\
  (forall cacScore,
      cacScore <> VStr "" -> cacScore <> VNull -> cacScore <> VUndefined ->
      is_finite (Number cacScore) = false \/ (Number cacScore <? 0) = true ->
      Detailed.interpretCAC cacScore =
        Some (Detailed.Invalid "bad" "Invalid CAC" "CAC must be a number ≥ 0.")) /\
  Detailed.interpretCAC (VNum (-1)) =
    Some (Detailed.Invalid "bad" "Invalid CAC" "CAC must be a number ≥ 0.") /\
  (forall els cacText,
      Detailed.ptpObj (Detailed.onCalculate els) =
        Detailed.calculatePretestProbability
          (VNum (Number (VStr (age_value els))))
          (VStr (sex_value els)) (VStr (symptom_value els))
      /\ Detailed.ptpObj
           (Detailed.onCalculate
              (Form (age_value els) (sex_value els) (symptom_value els) cacText))
         = Detailed.ptpObj (Detailed.onCalculate els)).
Proof.
  split; [repeat split|split; [|split; [vm_compute; reflexivity|]]].
  - intros cacScore He Hn Hu Hbad. unfold Detailed.interpretCAC.
    assert (strictEq cacScore VNull = false) as ->
      by (destruct (strictEq cacScore VNull) eqn:E;
          [apply strictEq_null in E; contradiction | reflexivity]).
    assert (strictEq cacScore VUndefined = false) as ->
      by (destruct (strictEq cacScore VUndefined) eqn:E;
          [apply strictEq_undefined in E; contradiction | reflexivity]).
    assert (strictEq cacScore (VStr "") = false) as ->
      by (destruct (strictEq cacScore (VStr "")) eqn:E;
          [apply strictEq_empty in E; contradiction | reflexivity]).
    simpl.
    destruct Hbad as [-> | ->]; [reflexivity | rewrite orb_true_r; reflexivity].
  - intros els cacText. split; reflexivity.
Qed.

End CacClaims.

(** ** The table *)

Section TableClaims.
Context `{Builtins}.

Lemma run_keeps_table {view : Type} (handler : form -> view) events :
  forall pg, table (run handler events pg) = table pg.
Proof.
  induction events as [|e events IH]; intros pg; [reflexivity|].
  simpl. rewrite IH. destruct e; reflexivity.
Qed.

(** C8: for every symptom, sex and band other than lt30 the table holds an
    integer percent between 0 and 100 (and none for lt30), and the table of
    the page is the literal it was loaded with after any sequence of edits
    and clicks, whichever script handles them. *)
Theorem table_total_and_fixed :
  (forall symptom sex band,
      In symptom symptoms -> In sex sexes -> In band tableBands ->
      exists ptp : Z,
        lookupPTP PTP_TABLE symptom sex (VStr band) = Some ptp
        /\ (0 <= ptp <= 100)%Z) /\
  (forall symptom sex,
      In symptom symptoms -> In sex sexes ->
      lookupPTP PTP_TABLE symptom sex (VStr "lt30") = None) /\
  (forall events,
      table (run Script.onCalculate events loaded) = PTP_TABLE /\
      table (run Detailed.onCalculate events loaded) = PTP_TABLE /\
      table (run Build4.onCalculate events loaded) = PTP_TABLE).
Proof.
  split; [|split].
  - apply table_total.
  - apply table_lt30.
  - intros events. rewrite !run_keeps_table. repeat split.
Qed.

End TableClaims.

(** ** Where the scripts part ways

    The same calls in the scripts that the statements above leave out. *)

Section Variants.
Context `{Builtins}.

(** script.js stops at the first missing input and reports no flag and no
    band, also below 30. *)
Remark script_reports_nothing :
  Script.calculatePretestProbability (VNum 50) VUndefined (VStr "dyspnea")
    = Script.Failure [] /\
  Script.calculatePretestProbability (VNum 25) (VStr "men") (VStr "chestPain")
    = Script.Failure [].
Proof. split; vm_compute; reflexivity. Qed.

(** script.js answers null on an invalid score; it and the second script of
    part_000 classify null itself, which converts to 0, and leave the empty
    field to [onCalculate]. *)
Remark three_bucket_scripts_on_missing_input :
  Script.interpretCAC (VNum (-1)) = None /\
  Script.interpretCAC VNull = Some (Script.CacRange "≤15%" "low") /\
  Build4.interpretCAC VNull = Build4.Range "≤15%" "low" /\
  Build4.interpretCAC (VNum (-1)) = Build4.Invalid "CAC must be a number ≥ 0." /\
  (forall ageText sexText symptomText,
      snd (Script.onCalculate (Form ageText sexText symptomText "")) = None /\
      snd (fst (Build4.onCalculate (Form ageText sexText symptomText ""))) = None).
Proof. repeat split; vm_compute; reflexivity. Qed.

(** The first script of part_000 has four buckets marked low, low, high and
    veryhigh, and tests whole scores only: a score strictly between 0 and 1,
    or between 99 and 100, falls through to the last bucket. *)
Remark detailed_four_buckets :
  Detailed.interpretCAC (VNum 0) =
    Some (Detailed.Bucket "0" "≤15%" "low" "CAC 0"
            "Figure-style interpretation: CAC 0 → ≤15%.") /\
  Detailed.interpretCAC (VNum 99) =
    Some (Detailed.Bucket "1-99" "≤15%" "low" "CAC 1–99" "CAC 1–99 → ≤15% (low).") /\
  Detailed.interpretCAC (VNum 100) =
    Some (Detailed.Bucket "100-999" ">15–50%" "high" "CAC 100–999"
            "CAC 100–999 → >15–50%.") /\
  Detailed.interpretCAC (VNum 1000) =
    Some (Detailed.Bucket ">=1000" ">50%" "veryhigh" "CAC ≥1000" "CAC ≥1000 → >50%.") /\
  Detailed.interpretCAC (VNum 0.5) =
    Some (Detailed.Bucket ">=1000" ">50%" "veryhigh" "CAC ≥1000" "CAC ≥1000 → >50%.") /\
  Detailed.interpretCAC (VNum 99.5) =
    Some (Detailed.Bucket ">=1000" ">50%" "veryhigh" "CAC ≥1000" "CAC ≥1000 → >50%.").
Proof. repeat split; vm_compute; reflexivity. Qed.

(** The second script of part_000 accumulates the same flags as the first
    and reports no band. *)
Remark build4_flags_accumulate :
  (forall sex,
      ~ In sex sexes ->
      Build4.calculatePretestProbability (VNum 50) sex (VStr "dyspnea") =
        Build4.Failure [Flag "bad" "Sex is required."]) /\
  Build4.calculatePretestProbability VUndefined VUndefined VUndefined =
    Build4.Failure
      [Flag "bad" "Age is required and must be a number.";
       Flag "bad" "Sex is required.";
       Flag "bad" "Symptom selection is required."] /\
  (forall a sex symptom,
      is_finite a = true -> (a <? 30)%float = true ->
      In sex sexes -> In symptom symptoms ->
      Build4.calculatePretestProbability (VNum a) sex symptom =
        Build4.Failure
          [Flag "warn" "Age <30: figure table begins at 30–39; not applicable.";
           Flag "bad" "No table value for age <30 from the provided figure."]).
Proof.
  split; [|split; [vm_compute; reflexivity|]].
  - intros sex Hs.
    rewrite (build4_band (VNum 50) sex (VStr "dyspnea") "50-59");
      [| unfold tableBands; simpl; auto | vm_compute; reflexivity].
    destruct (sexFlags_cases sex) as [[? _] | [_ ->]]; [contradiction|].
    reflexivity.
  - intros a sex symptom Hf Hlt Hs Hy.
    rewrite (build4_lt30 (VNum a) sex symptom (getAgeBand_lt30 a Hf Hlt)).
    rewrite (sexFlags_valid _ Hs), (symptomFlags_valid _ Hy). reflexivity.
Qed.

End Variants.

(** ** The statements at concrete inputs *)

Section Witnesses.
#[local] Existing Instance sampleBuiltins.

Lemma getAgeBand_bands_witness :
  getAgeBand (VNum 25) = VStr "lt30" /\
  getAgeBand (VNum 35) = VStr "30-39" /\
  getAgeBand (VNum 45) = VStr "40-49" /\
  getAgeBand (VNum 55) = VStr "50-59" /\
  getAgeBand (VNum 65) = VStr "60-69" /\
  getAgeBand (VNum 75) = VStr "70+" /\
  getAgeBand (VNum neg_infinity) = VNull /\
  exists band,
    (In band tableBands /\ getAgeBand (VNum 49.5) = VStr band) /\
    forall other, getAgeBand (VNum 49.5) = VStr other -> other = band.
Proof.
  destruct (getAgeBand_bands 25) as (H25 & _).
  destruct (getAgeBand_bands 35) as (_ & H35 & _).
  destruct (getAgeBand_bands 45) as (_ & _ & H45 & _).
  destruct (getAgeBand_bands 55) as (_ & _ & _ & H55 & _).
  destruct (getAgeBand_bands 65) as (_ & _ & _ & _ & H65 & _).
  destruct (getAgeBand_bands 75) as (_ & _ & _ & _ & _ & H75 & _).
  destruct (getAgeBand_bands neg_infinity) as (_ & _ & _ & _ & _ & _ & Hinf & _).
  destruct (getAgeBand_bands 49.5) as (_ & _ & _ & _ & _ & _ & _ & Hone & _).
  split; [apply H25; vm_compute; reflexivity|].
  split; [apply H35; vm_compute; reflexivity|].
  split; [apply H45; vm_compute; reflexivity|].
  split; [apply H55; vm_compute; reflexivity|].
  split; [apply H65; vm_compute; reflexivity|].
  split; [apply H75; vm_compute; reflexivity|].
  split; [apply Hinf; vm_compute; reflexivity|].
  apply Hone; vm_compute; reflexivity.
Defined.

Lemma detailed_valid_triple_witness :
  exists band ptp,
    getAgeBand (VNum 62) = VStr band /\
    lookupPTP PTP_TABLE (VStr "dyspnea") (VStr "women") (VStr band) = Some ptp /\
    Detailed.calculatePretestProbability (VNum 62) (VStr "women") (VStr "dyspnea") =
      Detailed.Success ptp ("≤" ++ decimal ptp ++ "%")%string
        (if (ptp <=? 15)%Z then "low" else "intermediateHigh") (VStr band) [].
Proof.
  apply (proj1 detailed_valid_triple (VNum 62) (VStr "women") (VStr "dyspnea")).
  - vm_compute. discriminate.
  - vm_compute. discriminate.
  - simpl. auto.
  - simpl. auto.
Defined.

Lemma three_bucket_classification_witness :
  (Build4.interpretCAC (VStr "42") = Build4.Range "≤15%" "low" /\
   Script.interpretCAC (VStr "42") = Some (Script.CacRange "≤15%" "low")) /\
  (Build4.interpretCAC (VStr "250") = Build4.Range ">15–50%" "intermediateHigh" /\
   Script.interpretCAC (VStr "250")
     = Some (Script.CacRange ">15–50%" "intermediateHigh")) /\
  (Build4.interpretCAC (VNum 2500.5) = Build4.Range ">50%" "high" /\
   Script.interpretCAC (VNum 2500.5) = Some (Script.CacRange ">50%" "high")).
Proof.
  split; [|split].
  - apply (proj1 (three_bucket_classification (VStr "42")));
      vm_compute; reflexivity.
  - apply (proj1 (proj2 (three_bucket_classification (VStr "250"))));
      vm_compute; reflexivity.
  - apply (proj1 (proj2 (proj2 (three_bucket_classification (VNum 2500.5)))));
      vm_compute; reflexivity.
Defined.

Lemma detailed_flags_accumulate_witness :
  (In (Flag "warn" "Age <30: the provided figure table begins at 30–39. Result may not be applicable.")
      [Flag "warn" "Age <30: the provided figure table begins at 30–39. Result may not be applicable.";
       Flag "bad" "Sex is required."; Flag "bad" "Symptom selection is required."]
   /\ In (Flag "bad" "Sex is required.")
        [Flag "warn" "Age <30: the provided figure table begins at 30–39. Result may not be applicable.";
         Flag "bad" "Sex is required."; Flag "bad" "Symptom selection is required."]
   /\ In (Flag "bad" "Symptom selection is required.")
        [Flag "warn" "Age <30: the provided figure table begins at 30–39. Result may not be applicable.";
         Flag "bad" "Sex is required."; Flag "bad" "Symptom selection is required."]) /\
  (exists fl band,
      Detailed.calculatePretestProbability VUndefined VNull (VStr "chestPain")
        = Detailed.Failure fl band
      /\ In (Flag "bad" "Sex is required.") fl) /\
  Detailed.calculatePretestProbability (VNum 50) (VStr "") (VStr "dyspnea") =
    Detailed.Failure [Flag "bad" "Sex is required."] (VStr "50-59").
Proof.
  destruct detailed_flags_accumulate as (Hall & Hsex & H50 & _).
  split; [|split].
  - destruct (Hall (VNum 12) (VStr "") (VStr "cough")
                [Flag "warn" "Age <30: the provided figure table begins at 30–39. Result may not be applicable.";
                 Flag "bad" "Sex is required."; Flag "bad" "Symptom selection is required."]
                (VStr "lt30") eq_refl) as (_ & Hw & Hs & Hy).
    split; [apply Hw; vm_compute; reflexivity|].
    split; [apply Hs | apply Hy]; simpl; intros [E | [E | []]]; discriminate.
  - apply (Hsex VUndefined VNull (VStr "chestPain")).
    simpl. intros [E | [E | []]]; discriminate.
  - apply (H50 (VStr "")).
    simpl. intros [E | [E | []]]; discriminate.
Defined.

Lemma detailed_below_30_witness :
  Detailed.calculatePretestProbability (VNum 18.5) (VStr "women") (VStr "dyspnea") =
    Detailed.Failure
      [Flag "warn" "Age <30: the provided figure table begins at 30–39. Result may not be applicable.";
       Flag "bad" "No table value available for age <30 from the provided figure. Cannot compute."]
      (VStr "lt30").
Proof.
  apply (proj1 detailed_below_30 18.5%float (VStr "women") (VStr "dyspnea")).
  - vm_compute. reflexivity.
  - vm_compute. reflexivity.
  - simpl. auto.
  - simpl. auto.
Defined.

Lemma detailed_cac_invalid_witness :
  Detailed.interpretCAC (VStr "abc") =
    Some (Detailed.Invalid "bad" "Invalid CAC" "CAC must be a number ≥ 0.") /\
  Detailed.interpretCAC (VNum (-0.25)) =
    Some (Detailed.Invalid "bad" "Invalid CAC" "CAC must be a number ≥ 0.").
Proof.
  destruct detailed_cac_invalid as (_ & Hbad & _).
  split.
  - apply (Hbad (VStr "abc")); try discriminate.
    left. vm_compute. reflexivity.
  - apply (Hbad (VNum (-0.25))); try discriminate.
    right. vm_compute. reflexivity.
Defined.

Lemma success_without_bad_flag_witness :
  Forall (fun f => level f <> "bad")
    (Detailed.flags
       (Detailed.calculatePretestProbability (VNum 45) (VStr "men") (VStr "chestPain"))) /\
  Forall (fun f => level f <> "bad")
    (Build4.flags
       (Build4.calculatePretestProbability (VNum 45) (VStr "men") (VStr "chestPain"))) /\
  Forall (fun f => level f <> "bad")
    (Script.flags
       (Script.calculatePretestProbability (VNum 45) (VStr "men") (VStr "chestPain"))).
Proof.
  destruct (success_without_bad_flag (VNum 45) (VStr "men") (VStr "chestPain"))
    as (Hd & Hb & Hs).
  split; [|split]; apply List.Forall_forall.
  - apply (Hd 22%Z "≤22%" "intermediateHigh" (VStr "40-49")). vm_compute. reflexivity.
  - apply (Hb "≤22%" "intermediateHigh"). vm_compute. reflexivity.
  - apply (Hs "≤22%" "intermediateHigh"). vm_compute. reflexivity.
Defined.

Lemma table_total_and_fixed_witness :
  (exists ptp : Z,
      lookupPTP PTP_TABLE (VStr "chestPain") (VStr "women") (VStr "70+") = Some ptp
      /\ (0 <= ptp <= 100)%Z) /\
  lookupPTP PTP_TABLE (VStr "dyspnea") (VStr "men") (VStr "lt30") = None.
Proof.
  destruct table_total_and_fixed as (Htot & Hlt & _).
  split; [apply Htot | apply Hlt]; simpl; auto 6.
Defined.

Lemma detailed_failure_reports_band_witness :
  VStr "50-59" = getAgeBand (VNum 50) /\
  (VStr "50-59" = VStr "lt30"
   \/ exists b, In b tableBands /\ VStr "50-59" = VStr b).
Proof.
  apply (detailed_failure_reports_band (VNum 50) VUndefined (VStr "dyspnea")
           [Flag "bad" "Sex is required."] (VStr "50-59"));
    vm_compute; reflexivity.
Defined.

Lemma success_flags_empty_witness :
  Detailed.flags
    (Detailed.calculatePretestProbability (VNum 45) (VStr "men") (VStr "chestPain"))
    = [] /\
  Build4.flags
    (Build4.calculatePretestProbability (VNum 45) (VStr "men") (VStr "chestPain"))
    = [] /\
  Script.flags
    (Script.calculatePretestProbability (VNum 45) (VStr "men") (VStr "chestPain"))
    = [] /\
  Detailed.ok
    (Detailed.calculatePretestProbability (VNum 29) (VStr "men") (VStr "chestPain"))
    = false.
Proof.
  destruct (success_flags_empty (VNum 45) (VStr "men") (VStr "chestPain"))
    as (Hd & Hb & Hs & _).
  destruct (success_flags_empty (VNum 29) (VStr "men") (VStr "chestPain"))
    as (_ & _ & _ & Hlt).
  split; [|split; [|split]].
  - apply (Hd 22%Z "≤22%" "intermediateHigh" (VStr "40-49")). vm_compute. reflexivity.
  - apply (Hb "≤22%" "intermediateHigh"). vm_compute. reflexivity.
  - apply (Hs "≤22%" "intermediateHigh"). vm_compute. reflexivity.
  - apply Hlt. vm_compute. reflexivity.
Defined.

End Witnesses.

(** * The presentation layer *)

(** ** Escaping *)

Section Escaping.
#[local] Arguments String.append !s1 s2 : simpl nomatch.

Lemma text_app_assoc (a b c : string) :
  ((a ++ b) ++ c)%string = (a ++ (b ++ c))%string.
Proof. induction a as [|d a IH]; simpl; [reflexivity|]. rewrite IH. reflexivity. Qed.

Lemma substitute_app f a b :
  substitute f (a ++ b)%string = (substitute f a ++ substitute f b)%string.
Proof.
  induction a as [|c a IH]; simpl; [reflexivity|].
  rewrite IH, text_app_assoc. reflexivity.
Qed.

Lemma substitute_ext f g s :
  (forall c, f c = g c) -> substitute f s = substitute g s.
Proof.
  intros E. induction s as [|c s IH]; simpl; [reflexivity|]. rewrite E, IH. reflexivity.
Qed.

Lemma substitute_compose f g s :
  substitute g (substitute f s) = substitute (fun c => substitute g (f c)) s.
Proof.
  induction s as [|c s IH]; simpl; [reflexivity|].
  rewrite substitute_app, IH. reflexivity.
Qed.

(** Replacing a pattern of one character is a substitution. *)
Lemma replaceAll_one c replacement s :
  replaceAll (String c "") replacement s =
    substitute (fun d => if Ascii.eqb d c then replacement else String d "") s.
Proof.
  unfold replaceAll.
  induction s as [|d s IH]; simpl; [reflexivity|].
  rewrite IH. destruct (ascii_dec c d) as [<- | Hne].
  - rewrite Ascii.eqb_refl. destruct s; reflexivity.
  - destruct (Ascii.eqb_spec d c) as [-> | _]; [contradiction | reflexivity].
Qed.

Lemma escapeHtml_substitute (s : string) :
  escapeHtml s = substitute entityOf s.
Proof.
  unfold escapeHtml, dq. rewrite !replaceAll_one, !substitute_compose.
  apply substitute_ext. intros c.
  destruct c as [[] [] [] [] [] [] [] []]; reflexivity.
Qed.

(** X1: the five replacements in a row amount to one pass that rewrites each
    of the five characters to its entity and keeps every other character: the
    ampersand of an entity written by an earlier replacement is never escaped
    again. *)
Theorem escapeHtml_one_pass (s : string) :
  escapeHtml s = substitute entityOf s
  /\ escapeHtml "<&lt;>" = "&lt;&amp;lt;&gt;".
Proof. split; [apply escapeHtml_substitute | reflexivity]. Qed.

Lemma occurrences_app c a b :
  occurrences c (a ++ b)%string = occurrences c a + occurrences c b.
Proof. induction a as [|d a IH]; simpl; [reflexivity|]. rewrite IH. lia. Qed.

Lemma length_app a b :
  String.length (a ++ b)%string = String.length a + String.length b.
Proof. induction a as [|d a IH]; simpl; [reflexivity|]. rewrite IH. reflexivity. Qed.

Lemma entityOf_cases c :
  (c = "&"%char /\ entityOf c = "&amp;") \/
  (c = "<"%char /\ entityOf c = "&lt;") \/
  (c = ">"%char /\ entityOf c = "&gt;") \/
  (c = "034"%char /\ entityOf c = "&quot;") \/
  (c = "'"%char /\ entityOf c = "&#039;") \/
  (c <> "&"%char /\ c <> "<"%char /\ c <> ">"%char /\ c <> "034"%char
   /\ c <> "'"%char /\ entityOf c = String c "").
Proof.
  unfold entityOf.
  destruct (Ascii.eqb_spec c "&"); [left; auto | right].
  destruct (Ascii.eqb_spec c "<"); [left; auto | right].
  destruct (Ascii.eqb_spec c ">"); [left; auto | right].
  destruct (Ascii.eqb_spec c "034"); [left; auto | right].
  destruct (Ascii.eqb_spec c "'"); [left; auto | right].
  repeat split; auto.
Qed.

Lemma escapeHtml_counts (s : string) :
  occurrences "<" (escapeHtml s) = 0 /\
  occurrences ">" (escapeHtml s) = 0 /\
  occurrences "034" (escapeHtml s) = 0 /\
  occurrences "'" (escapeHtml s) = 0 /\
  occurrences "&" (escapeHtml s) =
    occurrences "&" s + occurrences "<" s + occurrences ">" s
    + occurrences "034" s + occurrences "'" s.
Proof.
  rewrite escapeHtml_substitute.
  induction s as [|c s (IH1 & IH2 & IH3 & IH4 & IH5)]; simpl; [auto|].
  rewrite !occurrences_app, IH1, IH2, IH3, IH4, IH5.
  destruct (entityOf_cases c)
    as [[-> ->] | [[-> ->] | [[-> ->] | [[-> ->] | [[-> ->]
        | (H1 & H2 & H3 & H4 & H5 & ->)]]]]]; simpl; try (repeat split; lia).
  destruct (Ascii.eqb_spec c "&"); [contradiction|].
  destruct (Ascii.eqb_spec c "<"); [contradiction|].
  destruct (Ascii.eqb_spec c ">"); [contradiction|].
  destruct (Ascii.eqb_spec c "034"); [contradiction|].
  destruct (Ascii.eqb_spec c "'"); [contradiction|].
  repeat split; lia.
Qed.

(** X2: whatever the text, the escaped text holds none of the characters that
    open or close a tag or an attribute value, and exactly one ampersand for
    each of the five characters of the text: every ampersand starts an
    entity. *)
Theorem escapeHtml_no_markup (s : string) :
  occurrences "<" (escapeHtml s) = 0 /\
  occurrences ">" (escapeHtml s) = 0 /\
  occurrences "034" (escapeHtml s) = 0 /\
  occurrences "'" (escapeHtml s) = 0 /\
  occurrences "&" (escapeHtml s) =
    occurrences "&" s + occurrences "<" s + occurrences ">" s
    + occurrences "034" s + occurrences "'" s.
Proof. apply escapeHtml_counts. Qed.

(** X3: two different texts never escape to the same text. *)
Theorem escapeHtml_injective (a b : string) :
  escapeHtml a = escapeHtml b -> a = b.
Proof.
  rewrite !escapeHtml_substitute. revert b.
  induction a as [|c a IH]; intros [|d b]; simpl; intros E.
  - reflexivity.
  - destruct (entityOf_cases d)
      as [[_ Ed] | [[_ Ed] | [[_ Ed] | [[_ Ed] | [[_ Ed] | (_ & _ & _ & _ & _ & Ed)]]]]];
      rewrite Ed in E; discriminate.
  - destruct (entityOf_cases c)
      as [[_ Ec] | [[_ Ec] | [[_ Ec] | [[_ Ec] | [[_ Ec] | (_ & _ & _ & _ & _ & Ec)]]]]];
      rewrite Ec in E; discriminate.
  - destruct (entityOf_cases c)
      as [[-> Ec] | [[-> Ec] | [[-> Ec] | [[-> Ec] | [[-> Ec]
          | (C1 & C2 & C3 & C4 & C5 & Ec)]]]]];
      destruct (entityOf_cases d)
        as [[-> Ed] | [[-> Ed] | [[-> Ed] | [[-> Ed] | [[-> Ed]
            | (D1 & D2 & D3 & D4 & D5 & Ed)]]]]];
      rewrite ?Ec, ?Ed in E; simpl in E; try discriminate;
      try (injection E as E; f_equal; apply IH; assumption);
      try (injection E as -> E; contradiction);
      try (injection E as <- E; contradiction).
    injection E as -> E. f_equal. apply IH. assumption.
Qed.

Lemma escapeHtml_length (s : string) :
  String.length (escapeHtml s) =
    String.length s + 4 * occurrences "&" s + 3 * occurrences "<" s
    + 3 * occurrences ">" s + 5 * occurrences "034" s + 5 * occurrences "'" s.
Proof.
  rewrite escapeHtml_substitute.
  induction s as [|c s IH]; simpl; [reflexivity|].
  rewrite length_app, IH.
  destruct (entityOf_cases c)
    as [[-> ->] | [[-> ->] | [[-> ->] | [[-> ->] | [[-> ->]
        | (H1 & H2 & H3 & H4 & H5 & ->)]]]]]; simpl; try lia.
  destruct (Ascii.eqb_spec c "&"); [contradiction|].
  destruct (Ascii.eqb_spec c "<"); [contradiction|].
  destruct (Ascii.eqb_spec c ">"); [contradiction|].
  destruct (Ascii.eqb_spec c "034"); [contradiction|].
  destruct (Ascii.eqb_spec c "'"); [contradiction|].
  lia.
Qed.

Lemma substitute_plain (s : string) :
  occurrences "&" s = 0 -> occurrences "<" s = 0 -> occurrences ">" s = 0 ->
  occurrences "034" s = 0 -> occurrences "'" s = 0 ->
  substitute entityOf s = s.
Proof.
  induction s as [|c s IH]; simpl; [reflexivity|].
  unfold entityOf.
  destruct (Ascii.eqb c "&"); [discriminate|].
  destruct (Ascii.eqb c "<"); [discriminate|].
  destruct (Ascii.eqb c ">"); [discriminate|].
  destruct (Ascii.eqb c "034"); [discriminate|].
  destruct (Ascii.eqb c "'"); [discriminate|].
  simpl. intros. f_equal. apply IH; assumption.
Qed.

(** X4: a text comes out of [escapeHtml] unchanged exactly when it holds none
    of the five characters. *)
Theorem escapeHtml_fixes_plain_text (s : string) :
  escapeHtml s = s <->
  occurrences "&" s = 0 /\ occurrences "<" s = 0 /\ occurrences ">" s = 0
  /\ occurrences "034" s = 0 /\ occurrences "'" s = 0.
Proof.
  split.
  - intros E. pose proof (escapeHtml_length s) as Hl. rewrite E in Hl. lia.
  - intros (H1 & H2 & H3 & H4 & H5).
    rewrite escapeHtml_substitute. apply substitute_plain; assumption.
Qed.

End Escaping.

(** ** Flags of the resolver and of the click handler *)

Section HandlerFlags.
Context `{Builtins}.

Lemma found_cases sex symptom :
  sexFlags sex ++ symptomFlags symptom = []
  \/ (existsb isBad (sexFlags sex ++ symptomFlags symptom) = true
      /\ Forall (fun f => level f = "bad") (sexFlags sex ++ symptomFlags symptom)).
Proof.
  destruct (sexFlags_cases sex) as [[_ ->] | [_ ->]];
    destruct (symptomFlags_cases symptom) as [[_ ->] | [_ ->]];
    [left; reflexivity | right .. ]; (split; [reflexivity | repeat constructor]).
Qed.

Lemma build4_outcome ageYears sex symptom :
  let found := sexFlags sex ++ symptomFlags symptom in
  let r := Build4.calculatePretestProbability ageYears sex symptom in
  (getAgeBand ageYears = VNull
   /\ r = Build4.Failure
            (Flag "bad" "Age is required and must be a number." :: found))
  \/ (getAgeBand ageYears = VStr "lt30" /\ found <> []
      /\ r = Build4.Failure
               (Flag "warn" "Age <30: figure table begins at 30–39; not applicable."
                  :: found))
  \/ (getAgeBand ageYears = VStr "lt30" /\ found = []
      /\ r = Build4.Failure
               [Flag "warn" "Age <30: figure table begins at 30–39; not applicable.";
                Flag "bad" "No table value for age <30 from the provided figure."])
  \/ (exists band, In band tableBands /\ getAgeBand ageYears = VStr band
      /\ found <> [] /\ r = Build4.Failure found)
  \/ (exists band ptp, In band tableBands /\ getAgeBand ageYears = VStr band
      /\ found = [] /\ In sex sexes /\ In symptom symptoms
      /\ lookupPTP PTP_TABLE symptom sex (VStr band) = Some ptp
      /\ r = Build4.Success (displayOf ptp) (categoryOf ptp) []).
Proof.
  cbv zeta.
  destruct (getAgeBand_range ageYears) as [E | [E | (band & Hin & E)]].
  - left. split; [assumption|]. apply build4_null_age; assumption.
  - rewrite (build4_lt30 _ sex symptom E).
    destruct (sexFlags sex ++ symptomFlags symptom) as [|f fl] eqn:Ef.
    + right; right; left. auto.
    + right; left. repeat split; [assumption | discriminate |].
      rewrite app_nil_r. reflexivity.
  - rewrite (build4_band _ sex symptom band Hin E).
    do 3 right.
    destruct (sexFlags sex ++ symptomFlags symptom) as [|f fl] eqn:Ef.
    + right. apply app_eq_nil in Ef as [Es Ey].
      assert (In sex sexes) as Hs
        by (destruct (sexFlags_cases sex) as [[? _] | [_ E']]; [assumption | congruence]).
      assert (In symptom symptoms) as Hy
        by (destruct (symptomFlags_cases symptom) as [[? _] | [_ E']];
            [assumption | congruence]).
      destruct (table_total symptom sex band Hy Hs Hin) as (ptp & Hp & _).
      exists band, ptp. rewrite Hp. auto 10.
    + left. exists band. repeat split; [assumption | assumption | discriminate].
Qed.

(** X5: in the two scripts of part_000 a call fails exactly when its flag
    list holds a flag of level bad: no failure comes without a reason, no
    success with one. *)
Theorem failure_iff_bad_flag (ageYears sex symptom : value) :
  Detailed.ok (Detailed.calculatePretestProbability ageYears sex symptom) =
    negb (existsb isBad
            (Detailed.flags (Detailed.calculatePretestProbability ageYears sex symptom)))
  /\
  Build4.ok (Build4.calculatePretestProbability ageYears sex symptom) =
    negb (existsb isBad
            (Build4.flags (Build4.calculatePretestProbability ageYears sex symptom))).
Proof.
  split.
  - destruct (detailed_outcome ageYears sex symptom)
      as [[_ E] | [(_ & Hne & E) | [(_ & _ & E) | [(b & _ & _ & Hne & E)
          | (b & p & _ & _ & _ & _ & _ & _ & E)]]]];
      rewrite E; try reflexivity;
      destruct (found_cases sex symptom) as [E0 | [Hb _]]; try contradiction;
      simpl; rewrite Hb; reflexivity.
  - destruct (build4_outcome ageYears sex symptom)
      as [[_ E] | [(_ & Hne & E) | [(_ & _ & E) | [(b & _ & _ & Hne & E)
          | (b & p & _ & _ & _ & _ & _ & _ & E)]]]];
      rewrite E; try reflexivity;
      destruct (found_cases sex symptom) as [E0 | [Hb _]]; try contradiction;
      simpl; rewrite Hb; reflexivity.
Qed.

(** X6: the two scripts of part_000 settle every call the same way: both
    fail or both succeed, with flags of the same levels in the same order,
    and on a success with the same display and category. *)
Theorem part_000_scripts_agree (ageYears sex symptom : value) :
  Detailed.ok (Detailed.calculatePretestProbability ageYears sex symptom) =
    Build4.ok (Build4.calculatePretestProbability ageYears sex symptom)
  /\ map level (Detailed.flags (Detailed.calculatePretestProbability ageYears sex symptom)) =
     map level (Build4.flags (Build4.calculatePretestProbability ageYears sex symptom))
  /\ (forall ptp display category band fl,
         Detailed.calculatePretestProbability ageYears sex symptom
           = Detailed.Success ptp display category band fl ->
         Build4.calculatePretestProbability ageYears sex symptom
           = Build4.Success display category fl).
Proof.
  destruct (getAgeBand_range ageYears) as [E | [E | (band & Hin & E)]].
  - rewrite (detailed_null_age _ sex symptom E), (build4_null_age _ sex symptom E).
    repeat split. discriminate.
  - rewrite (detailed_lt30 _ sex symptom E), (build4_lt30 _ sex symptom E).
    repeat split; [|discriminate].
    simpl. destruct (sexFlags sex ++ symptomFlags symptom); simpl;
      rewrite ?map_app; reflexivity.
  - rewrite (detailed_band _ sex symptom band Hin E),
      (build4_band _ sex symptom band Hin E).
    destruct (sexFlags sex ++ symptomFlags symptom); [|repeat split; discriminate].
    destruct (lookupPTP PTP_TABLE symptom sex (VStr band));
      repeat split; try discriminate.
    intros ptp display category b fl Hr. inversion Hr. reflexivity.
Qed.

Lemma band_not_below_30 a band :
  In band tableBands -> getAgeBand (VNum a) = VStr band -> (a <? 30)%float = false.
Proof.
  unfold getAgeBand, tableBands. intros Hin.
  destruct (is_finite a); simpl; [|discriminate].
  destruct (a <? 30)%float; [|reflexivity].
  intros E. injection E as <-. simpl in Hin.
  repeat destruct Hin as [Hin | Hin]; try discriminate. destruct Hin.
Qed.

Lemma detailed_flag_levels ageYears sex symptom :
  Forall (fun f => level f = "bad" \/ level f = "warn")
    (Detailed.flags (Detailed.calculatePretestProbability ageYears sex symptom)).
Proof.
  assert (Forall (fun f => level f = "bad" \/ level f = "warn")
            (sexFlags sex ++ symptomFlags symptom)) as Hf.
  { destruct (found_cases sex symptom) as [-> | [_ Hb]]; [constructor|].
    eapply List.Forall_impl; [|exact Hb]. simpl. auto. }
  destruct (detailed_outcome ageYears sex symptom)
    as [[_ E] | [(_ & _ & E) | [(_ & _ & E) | [(b & _ & _ & _ & E)
        | (b & p & _ & _ & _ & _ & _ & _ & E)]]]];
    rewrite E; simpl; repeat (apply List.Forall_cons; [simpl; auto|]);
    auto using List.Forall_nil.
Qed.

(** X7: every flag the click handler of the first script of part_000 hands
    to [renderFlags] has level bad or warn, so [renderFlags] never writes the
    class flag-good for it. *)
Theorem detailed_merged_flag_levels (els : form) :
  Forall (fun f => level f = "bad" \/ level f = "warn")
    (Detailed.mergedFlags (Detailed.onCalculate els)).
Proof.
  unfold Detailed.onCalculate. simpl.
  pose proof (detailed_flag_levels (VNum (Number (VStr (age_value els))))
                (VStr (sex_value els)) (VStr (symptom_value els))) as Hf.
  repeat match goal with
         | |- context [if ?c then _ else _] => destruct c
         | |- context [match ?c with Some _ => _ | None => _ end] => destruct c
         end;
    repeat (apply Forall_app; split); auto;
    repeat (apply List.Forall_cons; [simpl; auto|]); auto using List.Forall_nil.
Qed.

Lemma detailed_flags_never (ageYears sex symptom : value) (f : flag) :
  f <> Flag "bad" "Age is required and must be a number." ->
  f <> Flag "warn" "Age <30: the provided figure table begins at 30–39. Result may not be applicable." ->
  f <> Flag "bad" "Sex is required." ->
  f <> Flag "bad" "Symptom selection is required." ->
  f <> Flag "bad" "No table value available for age <30 from the provided figure. Cannot compute." ->
  ~ In f (Detailed.flags (Detailed.calculatePretestProbability ageYears sex symptom)).
Proof.
  intros H1 H2 H3 H4 H5 Hin.
  assert (~ In f (sexFlags sex ++ symptomFlags symptom)) as Hf.
  { destruct (sexFlags_cases sex) as [[_ ->] | [_ ->]];
      destruct (symptomFlags_cases symptom) as [[_ ->] | [_ ->]]; simpl;
      intuition congruence. }
  destruct (detailed_outcome ageYears sex symptom)
    as [[_ E] | [(_ & _ & E) | [(_ & _ & E) | [(b & _ & _ & _ & E)
        | (b & p & _ & _ & _ & _ & _ & _ & E)]]]];
    rewrite E in Hin; simpl in Hin; intuition congruence.
Qed.

(** X8: the click handler of the first script of part_000 never reports
    "Age <30: outside figure range; computation not provided.": it pushes it
    only after a success, and a success has an age of at least 30. *)
Theorem detailed_below_30_warning_unreachable (els : form) :
  Forall (fun f => f <> Flag "warn" "Age <30: outside figure range; computation not provided.")
    (Detailed.mergedFlags (Detailed.onCalculate els)).
Proof.
  apply List.Forall_forall. intros f Hin ->.
  unfold Detailed.onCalculate in Hin. cbv zeta in Hin.
  cbn [Detailed.mergedFlags] in Hin.
  set (a := Number (VStr (age_value els))) in *.
  set (r := Detailed.calculatePretestProbability (VNum a) (VStr (sex_value els))
              (VStr (symptom_value els))) in *.
  assert (~ In (Flag "warn" "Age <30: outside figure range; computation not provided.")
            (Detailed.flags r)) as Hr
    by (apply detailed_flags_never; discriminate).
  assert (Detailed.ok r = true -> (a <? 30)%float = false) as Hok.
  { subst r.
    destruct (detailed_outcome (VNum a) (VStr (sex_value els)) (VStr (symptom_value els)))
      as [[_ E] | [(_ & _ & E) | [(_ & _ & E) | [(b & _ & _ & _ & E)
          | (b & p & Hb & Eb & _ & _ & _ & _ & E)]]]];
      rewrite E; try discriminate.
    intros _. exact (band_not_below_30 a b Hb Eb). }
  destruct (Detailed.ok r) eqn:Eok.
  - rewrite (Hok eq_refl) in Hin.
    repeat match type of Hin with
           | context [if ?c then _ else _] => destruct c
           | context [match ?c with Some _ => _ | None => _ end] => destruct c
           end;
      repeat (apply in_app_or in Hin; destruct Hin as [Hin | Hin]);
      simpl in Hin; intuition discriminate.
  - repeat match type of Hin with
           | context [if ?c then _ else _] => destruct c
           | context [match ?c with Some _ => _ | None => _ end] => destruct c
           end;
      repeat (apply in_app_or in Hin; destruct Hin as [Hin | Hin]);
      simpl in Hin; intuition discriminate.
Qed.

End HandlerFlags.

(** ** More on binary64 comparisons *)

Section FloatEquality.
Local Open Scope float_scope.

Lemma SFeqb_SFleb x y : SFeqb x y = true -> SFleb x y = true.
Proof.
  unfold SFeqb, SFleb. destruct (SFcompare x y) as [[ | | ]|]; congruence.
Qed.

Lemma SFeqb_SFltb_false x y : SFeqb x y = true -> SFltb x y = false.
Proof.
  unfold SFeqb, SFltb. destruct (SFcompare x y) as [[ | | ]|]; congruence.
Qed.

Lemma SFeqb_finite x y : SFeqb x y = true -> SFfinite x = SFfinite y.
Proof.
  unfold SFeqb.
  destruct x as [sx|sx| |sx mx ex], y as [sy|sy| |sy my ey]; simpl;
    try reflexivity; try discriminate;
    try (destruct sx; discriminate); try (destruct sy; discriminate).
Qed.

Lemma eqb_leb x y : (x =? y) = true -> (x <=? y) = true.
Proof. rewrite FloatAxioms.eqb_spec, FloatAxioms.leb_spec. apply SFeqb_SFleb. Qed.

Lemma eqb_ltb_false x y : (x =? y) = true -> (x <? y) = false.
Proof. rewrite FloatAxioms.eqb_spec, FloatAxioms.ltb_spec. apply SFeqb_SFltb_false. Qed.

Lemma eqb_finite x y : (x =? y) = true -> is_finite x = is_finite y.
Proof. rewrite FloatAxioms.eqb_spec, !is_finite_spec. apply SFeqb_finite. Qed.

(** [x <= c] refutes [c' <= x] for every [c' > c]. *)
Lemma below_not_ge c c' x :
  (c <? c') = true -> (x <=? c) = true -> (c' <=? x) = false.
Proof.
  intros Hc Hx. destruct (c' <=? x) eqn:E; [|reflexivity].
  pose proof (leb_trans _ _ _ E Hx) as Hcc.
  rewrite (ltb_leb_false _ _ Hc) in Hcc. discriminate.
Qed.

(** A value above a positive bound is not zero. *)
Lemma above_not_zero c x :
  (0 <? c) = true -> (c <=? x) = true -> (x =? 0) = false.
Proof.
  intros Hc Hx. destruct (x =? 0) eqn:E; [|reflexivity].
  pose proof (eqb_leb _ _ E) as Hle.
  rewrite (above_not_le c 0 x Hc Hx) in Hle. discriminate.
Qed.

(** [a <= b < c] gives [a < c], for finite values. *)
Lemma leb_ltb_trans a b c :
  is_finite a = true -> is_finite c = true ->
  (a <=? b) = true -> (b <? c) = true -> (a <? c) = true.
Proof.
  intros Ha Hc Hab Hbc.
  destruct (a <? c) eqn:E; [reflexivity|].
  pose proof (ltb_false_leb _ _ Ha Hc E) as Hca.
  pose proof (leb_trans _ _ _ Hca Hab) as Hcb.
  rewrite (ltb_leb_false _ _ Hbc) in Hcb. discriminate.
Qed.

End FloatEquality.

(** ** CAC scores, bucket by bucket *)

Section CacBuckets.
Context `{Builtins}.
Local Open Scope float_scope.

Lemma ltb_eqb_false x y : (x <? y) = true -> (y =? x) = false.
Proof.
  intros Hlt. destruct (y =? x) eqn:E; [|reflexivity].
  pose proof (eqb_leb _ _ E) as Hle.
  rewrite (ltb_leb_false _ _ Hlt) in Hle. discriminate.
Qed.

Lemma detailed_cac_not_missing cacScore :
  cacScore <> VStr "" -> cacScore <> VNull -> cacScore <> VUndefined ->
  strictEq cacScore VNull || strictEq cacScore VUndefined
  || strictEq cacScore (VStr "") = false.
Proof.
  intros He Hn Hu.
  destruct (strictEq cacScore VNull) eqn:E1;
    [apply strictEq_null in E1; contradiction|].
  destruct (strictEq cacScore VUndefined) eqn:E2;
    [apply strictEq_undefined in E2; contradiction|].
  destruct (strictEq cacScore (VStr "")) eqn:E3;
    [apply strictEq_empty in E3; contradiction|].
  reflexivity.
Qed.

(** X9: the buckets of the first script of part_000, for an input that is
    not missing.  A score equal to 0 is in bucket 0, a score from 1 to 99 in
    1-99, from 100 to 999 in 100-999, a finite score from 1000 on in >=1000.
    The tests name whole bounds only: a score strictly between 0 and 1,
    between 99 and 100 or between 999 and 1000 falls through to >=1000 with
    the range ">50%". *)
Theorem detailed_buckets (cacScore : value) :
  cacScore <> VStr "" -> cacScore <> VNull -> cacScore <> VUndefined ->
  ((Number cacScore =? 0) = true ->
     Detailed.interpretCAC cacScore =
       Some (Detailed.Bucket "0" "≤15%" "low" "CAC 0"
               "Figure-style interpretation: CAC 0 → ≤15%.")) /\
  ((1 <=? Number cacScore) = true -> (Number cacScore <=? 99) = true ->
     Detailed.interpretCAC cacScore =
       Some (Detailed.Bucket "1-99" "≤15%" "low" "CAC 1–99" "CAC 1–99 → ≤15% (low).")) /\
  ((100 <=? Number cacScore) = true -> (Number cacScore <=? 999) = true ->
     Detailed.interpretCAC cacScore =
       Some (Detailed.Bucket "100-999" ">15–50%" "high" "CAC 100–999"
               "CAC 100–999 → >15–50%.")) /\
  (is_finite (Number cacScore) = true -> (1000 <=? Number cacScore) = true ->
     Detailed.interpretCAC cacScore =
       Some (Detailed.Bucket ">=1000" ">50%" "veryhigh" "CAC ≥1000" "CAC ≥1000 → >50%.")) /\
  (((0 <? Number cacScore) = true /\ (Number cacScore <? 1) = true)
   \/ ((99 <? Number cacScore) = true /\ (Number cacScore <? 100) = true)
   \/ ((999 <? Number cacScore) = true /\ (Number cacScore <? 1000) = true) ->
     Detailed.interpretCAC cacScore =
       Some (Detailed.Bucket ">=1000" ">50%" "veryhigh" "CAC ≥1000" "CAC ≥1000 → >50%.")).
Proof.
  intros He Hn Hu. unfold Detailed.interpretCAC.
  rewrite (detailed_cac_not_missing _ He Hn Hu). cbv zeta.
  set (n := Number cacScore).
  repeat split.
  - intros H0.
    rewrite (eqb_finite _ _ H0), (eqb_ltb_false _ _ H0), H0. reflexivity.
  - intros Hlo Hhi.
    rewrite (leb_between_finite 1 n 99), (above_not_lt 1 0 n),
      (above_not_zero 1 n), Hlo, Hhi; auto.
  - intros Hlo Hhi.
    rewrite (leb_between_finite 100 n 999), (above_not_lt 100 0 n),
      (above_not_zero 100 n), (above_not_le 100 99 n), Hlo, Hhi; auto.
    rewrite andb_false_r. reflexivity.
  - intros Hf Hlo.
    rewrite Hf, (above_not_lt 1000 0 n), (above_not_zero 1000 n),
      (above_not_le 1000 99 n), (above_not_le 1000 999 n); auto.
    rewrite !andb_false_r. reflexivity.
  - intros [[Hlo Hhi] | [[Hlo Hhi] | [Hlo Hhi]]].
    + rewrite (leb_between_finite 0 n 1), (leb_ltb_false 0 n),
        (ltb_eqb_false 0 n), (ltb_leb_false n 1), (below_not_ge 1 100 n);
        auto using ltb_leb.
    + pose proof (ltb_leb _ _ Hlo) as Hle.
      rewrite (leb_between_finite 99 n 100), (above_not_lt 99 0 n),
        (above_not_zero 99 n), (ltb_leb_false 99 n), (ltb_leb_false n 100);
        auto using ltb_leb.
      rewrite andb_false_r. reflexivity.
    + pose proof (ltb_leb _ _ Hlo) as Hle.
      rewrite (leb_between_finite 999 n 1000), (above_not_lt 999 0 n),
        (above_not_zero 999 n), (above_not_le 999 99 n), (ltb_leb_false 999 n);
        auto using ltb_leb.
      rewrite !andb_false_r. reflexivity.
Qed.

(** X10: the buckets of the two scripts with three of them, as intervals of
    [Number(cacScore)]: invalid when it is not finite or negative, low from
    0 to 99, intermediateHigh above 99 up to 999, high above 999; script.js
    answers null where the second script of part_000 answers its failure, and
    the same range and category otherwise. *)
Theorem three_bucket_intervals (cacScore : value) :
  (Build4.interpretCAC cacScore = Build4.Invalid "CAC must be a number ≥ 0." <->
     is_finite (Number cacScore) = false \/ (Number cacScore <? 0) = true) /\
  (Build4.interpretCAC cacScore = Build4.Range "≤15%" "low" <->
     is_finite (Number cacScore) = true /\ (0 <=? Number cacScore) = true
     /\ (Number cacScore <=? 99) = true) /\
  (Build4.interpretCAC cacScore = Build4.Range ">15–50%" "intermediateHigh" <->
     is_finite (Number cacScore) = true /\ (99 <? Number cacScore) = true
     /\ (Number cacScore <=? 999) = true) /\
  (Build4.interpretCAC cacScore = Build4.Range ">50%" "high" <->
     is_finite (Number cacScore) = true /\ (999 <? Number cacScore) = true) /\
  Script.interpretCAC cacScore =
    match Build4.interpretCAC cacScore with
    | Build4.Invalid _ => None
    | Build4.Range range category => Some (Script.CacRange range category)
    end.
Proof.
  unfold Build4.interpretCAC, Script.interpretCAC. cbv zeta.
  set (n := Number cacScore).
  assert (forall c, is_finite n = true -> is_finite c = true ->
                    (n <=? c) = false -> (c <? n) = true) as Hgt
    by (intros c Hn Hc; apply leb_false_ltb; assumption).
  assert (forall c, is_finite n = true -> is_finite c = true ->
                    (n <? c) = false -> (c <=? n) = true) as Hge
    by (intros c Hn Hc; apply ltb_false_leb; assumption).
  assert (forall c, (c <? n) = true -> (n <=? c) = false)
    as Hnle by (intros c; apply ltb_leb_false).
  assert (forall c, (c <=? n) = true -> (n <? c) = false)
    as Hnlt by (intros c; apply leb_ltb_false).
  assert (forall c c', (c' <=? c) = true -> (c <? n) = true -> (n <=? c') = false)
    as Hnle'.
  { intros c c' Hc Hlt. destruct (n <=? c') eqn:E; [|reflexivity].
    pose proof (leb_trans _ _ _ E Hc) as Hac. rewrite (Hnle _ Hlt) in Hac.
    discriminate. }
  assert (forall c, (0 <=? c) = true -> (c <? n) = true -> (n <? 0) = false)
    as Hpos.
  { intros c Hc Hlt. apply (above_not_lt c 0 n Hc). apply ltb_leb, Hlt. }
  destruct (is_finite n) eqn:Ef, (n <? 0) eqn:E0, (n <=? 99) eqn:E99,
           (n <=? 999) eqn:E999; simpl;
    repeat split; intros;
    repeat match goal with
           | Hc : _ /\ _ |- _ => destruct Hc
           | Hc : _ \/ _ |- _ => destruct Hc
           end;
    try discriminate; try reflexivity; try assumption; auto;
    try (apply Hge; [reflexivity | reflexivity | assumption]);
    try (apply Hgt; [reflexivity | reflexivity | assumption]);
    exfalso;
    repeat match goal with
           | Hlo : (0 <=? n) = true |- _ =>
               pose proof (Hnlt 0 Hlo); clear Hlo
           | Hlt : (?c <? n) = true |- _ =>
               pose proof (Hpos c eq_refl Hlt);
               pose proof (Hnle c Hlt);
               try pose proof (Hnle' c 99 eq_refl Hlt);
               clear Hlt
           end;
    congruence.
Qed.

End CacBuckets.

(** ** What the click handlers pass on *)

Section Handlers.
Context `{Builtins}.
Local Open Scope float_scope.

Lemma strictEq_text_empty s : strictEq (VStr s) (VStr "") = String.eqb s "".
Proof. reflexivity. Qed.

(** The guard of [onCalculate] in the two scripts of part_000. *)
Lemma cac_guard s :
  negb (strictEq (VStr s) (VStr "")) && negb (strictEq (VStr s) VNull)
  && negb (strictEq (VStr s) VUndefined) = negb (String.eqb s "").
Proof. simpl. rewrite !andb_true_r. reflexivity. Qed.

Lemma detailed_cac_of_text s :
  s <> "" ->
  Detailed.interpretCAC (VStr s) <> None /\
  (forall c, Detailed.interpretCAC (VStr s) = Some c ->
     Detailed.cacOk c = false <->
     is_finite (StringToNumber s) = false \/ (StringToNumber s <? 0) = true).
Proof.
  intros Hs. unfold Detailed.interpretCAC.
  rewrite detailed_cac_not_missing by congruence. cbv zeta. simpl Number.
  destruct (is_finite (StringToNumber s)), (StringToNumber s <? 0); simpl;
    try (split; [discriminate|]; intros c E; injection E as <-; simpl; intuition congruence).
  repeat match goal with
         | |- context [if ?c then _ else _] => destruct c
         end;
    (split; [discriminate|]); intros c E; injection E as <-; simpl;
    intuition congruence.
Qed.

(** X11: the CAC result the handlers pass on is null exactly for an empty CAC
    field in the two scripts of part_000, whose [interpretCAC] is never called
    on a missing input by them; in script.js it is null for an empty field and
    also for a score that is not finite or negative, which it cannot tell
    apart. *)
Theorem cac_result_missing (els : form) :
  (Detailed.cacObj (Detailed.onCalculate els) = None <-> cac_value els = "") /\
  (snd (fst (Build4.onCalculate els)) = None <-> cac_value els = "") /\
  (snd (Script.onCalculate els) = None <->
     cac_value els = ""
     \/ is_finite (StringToNumber (cac_value els)) = false
     \/ (StringToNumber (cac_value els) <? 0) = true).
Proof.
  unfold Detailed.onCalculate, Build4.onCalculate, Script.onCalculate.
  cbv zeta. cbn [Detailed.cacObj fst snd]. rewrite !cac_guard.
  cbn [truthy].
  destruct (String.eqb_spec (cac_value els) "") as [E | E]; simpl.
  - repeat split; auto.
  - split; [|split].
    + split; [|contradiction].
      intros E'. destruct (detailed_cac_of_text _ E) as [Hn _]. contradiction.
    + split; [discriminate | contradiction].
    + unfold Script.interpretCAC. cbv zeta. simpl Number.
      destruct (is_finite (StringToNumber (cac_value els))),
        (StringToNumber (cac_value els) <? 0); simpl;
        try (split; [auto | reflexivity]).
      split; [|intros [? | [? | ?]]; [contradiction | discriminate..]].
      repeat match goal with
             | |- context [if ?c then _ else _] => destruct c
             end; discriminate.
Qed.

(** X12: in the first script of part_000 the handler reports the bad flag
    "CAC input invalid (must be ≥0)." exactly when the CAC field is not empty
    and its number is not finite or is negative, whether the PTP part
    succeeded or not. *)
Theorem detailed_cac_flag (els : form) :
  In (Flag "bad" "CAC input invalid (must be ≥0).")
     (Detailed.mergedFlags (Detailed.onCalculate els)) <->
  cac_value els <> ""
  /\ (is_finite (StringToNumber (cac_value els)) = false
      \/ (StringToNumber (cac_value els) <? 0) = true).
Proof.
  unfold Detailed.onCalculate. cbv zeta. cbn [Detailed.mergedFlags].
  rewrite cac_guard.
  set (r := Detailed.calculatePretestProbability _ _ _).
  set (a := Number (VStr (age_value els))).
  set (base := if Detailed.ok r then _ else _).
  assert (~ In (Flag "bad" "CAC input invalid (must be ≥0).") base) as Hbase.
  { assert (~ In (Flag "bad" "CAC input invalid (must be ≥0).") (Detailed.flags r))
      as Hr by (apply detailed_flags_never; discriminate).
    subst base. destruct (Detailed.ok r); [|assumption].
    destruct (100 <? a), (a <? 30); intros Hin;
      repeat (apply in_app_or in Hin; destruct Hin as [Hin | Hin]);
      simpl in Hin; intuition discriminate. }
  destruct (String.eqb_spec (cac_value els) "") as [E | E]; simpl.
  - split; [contradiction | intros [? _]; contradiction].
  - destruct (detailed_cac_of_text _ E) as [Hn Hc].
    destruct (Detailed.interpretCAC (VStr (cac_value els))) as [c|]; [|contradiction].
    specialize (Hc c eq_refl).
    destruct (Detailed.cacOk c); simpl.
    + split; [contradiction|]. intros [_ Hbad]. apply Hc in Hbad. discriminate.
    + split; [intros _; split; [assumption | apply Hc; reflexivity]|].
      intros _. apply in_or_app. right. simpl. auto.
Qed.

(** X13: in the first script of part_000 the handler reports "Age >100:
    verify input." exactly when the PTP part succeeded on an age above 100;
    the result is then the one of the band 70+. *)
Theorem detailed_over_100_warning (els : form) :
  (In (Flag "warn" "Age >100: verify input.")
      (Detailed.mergedFlags (Detailed.onCalculate els)) <->
   Detailed.ok (Detailed.ptpObj (Detailed.onCalculate els)) = true
   /\ (100 <? StringToNumber (age_value els)) = true) /\
  (Detailed.ok (Detailed.ptpObj (Detailed.onCalculate els)) = true ->
   (100 <? StringToNumber (age_value els)) = true ->
   Detailed.ageBand (Detailed.ptpObj (Detailed.onCalculate els)) = VStr "70+").
Proof.
  unfold Detailed.onCalculate. cbv zeta.
  cbn [Detailed.mergedFlags Detailed.ptpObj]. simpl Number.
  set (a := StringToNumber (age_value els)).
  set (r := Detailed.calculatePretestProbability _ _ _).
  assert (~ In (Flag "warn" "Age >100: verify input.") (Detailed.flags r))
    as Hr by (apply detailed_flags_never; discriminate).
  split.
  - destruct (Detailed.ok r); simpl.
    + destruct (100 <? a) eqn:E100.
      * split; [auto|]. intros _.
        destruct (a <? 30);
          repeat match goal with
                 | |- context [match ?c with Some _ => _ | None => _ end] => destruct c
                 | |- context [if ?c then _ else _] => destruct c
                 end;
          rewrite ?List.in_app_iff; simpl; auto 10.
      * split; [|intros [_ ?]; discriminate].
        intros Hin.
        repeat match type of Hin with
               | context [match ?c with Some _ => _ | None => _ end] => destruct c
               | context [if ?c then _ else _] => destruct c
               end;
          repeat (apply in_app_or in Hin; destruct Hin as [Hin | Hin]);
          simpl in Hin; intuition discriminate.
    + split; [|intros [? _]; discriminate].
      intros Hin.
      repeat match type of Hin with
             | context [match ?c with Some _ => _ | None => _ end] => destruct c
             | context [if ?c then _ else _] => destruct c
             end;
        repeat (apply in_app_or in Hin; destruct Hin as [Hin | Hin]);
        simpl in Hin; intuition discriminate.
  - intros Hok H100. subst r.
    destruct (detailed_outcome (VNum a) (VStr (sex_value els)) (VStr (symptom_value els)))
      as [[_ E] | [(_ & _ & E) | [(_ & _ & E) | [(b & _ & _ & _ & E)
          | (b & p & Hb & Eb & _ & _ & _ & _ & E)]]]];
      rewrite E in Hok |- *; try discriminate.
    simpl. rewrite <- Eb. apply getAgeBand_70_up.
    + destruct (is_finite a) eqn:Ef; [reflexivity|].
      rewrite (getAgeBand_not_finite a Ef) in Eb. discriminate.
    + apply (leb_trans 70 100 a); [reflexivity | apply ltb_leb; assumption].
Qed.

(** X14: an age field that the language converts to 0, as it does the empty
    field, is taken for an age below 30 by the two scripts of part_000: the
    band is lt30, the warn flag on the range of the table is reported, and
    "Age is required and must be a number." is not. *)
Theorem empty_age_is_below_30 (ageText sexText symptomText cacText : string) :
  StringToNumber ageText = zero ->
  let r := Detailed.ptpObj
             (Detailed.onCalculate (Form ageText sexText symptomText cacText)) in
  let r' := fst (fst (Build4.onCalculate (Form ageText sexText symptomText cacText))) in
  Detailed.ok r = false /\ Detailed.ageBand r = VStr "lt30" /\
  In (Flag "warn" "Age <30: the provided figure table begins at 30–39. Result may not be applicable.")
     (Detailed.flags r) /\
  Forall (fun f => f <> Flag "bad" "Age is required and must be a number.")
         (Detailed.flags r) /\
  Build4.ok r' = false /\
  In (Flag "warn" "Age <30: figure table begins at 30–39; not applicable.")
     (Build4.flags r') /\
  Forall (fun f => f <> Flag "bad" "Age is required and must be a number.")
         (Build4.flags r').
Proof.
  intros E0. cbv zeta.
  unfold Detailed.onCalculate, Build4.onCalculate. cbv zeta.
  cbn [Detailed.ptpObj fst]. simpl Number. rewrite E0.
  assert (getAgeBand (VNum zero) = VStr "lt30") as Eb by reflexivity.
  rewrite (detailed_lt30 _ (VStr sexText) (VStr symptomText) Eb),
    (build4_lt30 _ (VStr sexText) (VStr symptomText) Eb).
  assert (Forall (fun f => f <> Flag "bad" "Age is required and must be a number.")
            (sexFlags (VStr sexText) ++ symptomFlags (VStr symptomText))) as Hf.
  { destruct (sexFlags_cases (VStr sexText)) as [[_ ->] | [_ ->]];
      destruct (symptomFlags_cases (VStr symptomText)) as [[_ ->] | [_ ->]];
      repeat (apply List.Forall_cons; [discriminate|]); apply List.Forall_nil. }
  cbn [Detailed.ok Detailed.ageBand Detailed.flags Build4.ok Build4.flags].
  repeat split; try (simpl; auto; fail).
  - apply List.Forall_cons; [discriminate|]. apply Forall_app. split; [assumption|].
    destruct (sexFlags (VStr sexText) ++ symptomFlags (VStr symptomText));
      repeat (apply List.Forall_cons; [discriminate|]); apply List.Forall_nil.
  - apply List.Forall_cons; [discriminate|]. apply Forall_app. split; [assumption|].
    destruct (sexFlags (VStr sexText) ++ symptomFlags (VStr symptomText));
      repeat (apply List.Forall_cons; [discriminate|]); apply List.Forall_nil.
Qed.

End Handlers.

(** ** Age bands in order *)

Section BandOrder.
Local Open Scope float_scope.

(** X15: the band never goes down with the age: for finite ages [a <= b] the
    band of [a] is the band of [b] or an earlier one. *)
Theorem getAgeBand_monotone (a b : number) :
  is_finite a = true -> is_finite b = true -> (a <=? b) = true ->
  bandRank (getAgeBand (VNum a)) <= bandRank (getAgeBand (VNum b)).
Proof.
  intros Ha Hb Hab.
  assert ((b <? 30) = true -> (a <? 30) = true) as H30
    by (apply leb_ltb_trans; auto).
  assert (forall c, (b <=? c) = true -> (a <=? c) = true) as Hle
    by (intros c; apply leb_trans; assumption).
  unfold getAgeBand. rewrite Ha, Hb. simpl.
  destruct (b <? 30) eqn:B30; [rewrite (H30 eq_refl); unfold bandRank; simpl; lia|].
  destruct (b <=? 39) eqn:B39;
    [rewrite (Hle 39 B39); destruct (a <? 30); unfold bandRank; simpl; lia|].
  destruct (b <=? 49) eqn:B49;
    [rewrite (Hle 49 B49); destruct (a <? 30), (a <=? 39); unfold bandRank; simpl; lia|].
  destruct (b <=? 59) eqn:B59;
    [rewrite (Hle 59 B59); destruct (a <? 30), (a <=? 39), (a <=? 49); unfold bandRank; simpl; lia|].
  destruct (b <=? 69) eqn:B69;
    [rewrite (Hle 69 B69);
     destruct (a <? 30), (a <=? 39), (a <=? 49), (a <=? 59); unfold bandRank; simpl; lia|].
  destruct (a <? 30), (a <=? 39), (a <=? 49), (a <=? 59), (a <=? 69); unfold bandRank; simpl; lia.
Qed.

End BandOrder.

(** ** The reference dialog *)

Section Dialog.

Lemma open_after_openModal m : "open" ∈ classList (openModal m).
Proof. simpl. apply elem_of_union_l, elem_of_singleton. reflexivity. Qed.

Lemma closed_after_closeModal m : "open" ∉ classList (closeModal m).
Proof.
  simpl. rewrite elem_of_difference, elem_of_singleton.
  intros [_ Hn]. apply Hn. reflexivity.
Qed.

Lemma modalStep_coherent m e : modalCoherent m -> modalCoherent (modalStep m e).
Proof.
  intros Hm.
  assert (modalCoherent (openModal m)) as Hopen
    by (left; split; [apply open_after_openModal | reflexivity]).
  assert (modalCoherent (closeModal m)) as Hclose
    by (right; split; [apply closed_after_closeModal | reflexivity]).
  destruct e as [ | | [] | key]; simpl; auto.
  destruct (String.eqb key "Escape" && bool_decide ("open" ∈ classList m)); auto.
Qed.

Lemma modalStep_other_classes m e token :
  token <> "open" -> token ∈ classList (modalStep m e) <-> token ∈ classList m.
Proof.
  intros Hne.
  assert (token ∈ classList (openModal m) <-> token ∈ classList m) as Hopen
    by (simpl; rewrite elem_of_union, elem_of_singleton; intuition).
  assert (token ∈ classList (closeModal m) <-> token ∈ classList m) as Hclose
    by (simpl; rewrite elem_of_difference, elem_of_singleton; intuition).
  destruct e as [ | | [] | key]; simpl; try assumption; try reflexivity.
  destruct (String.eqb key "Escape" && bool_decide ("open" ∈ classList m));
    [assumption | reflexivity].
Qed.

(** X16: the listeners of the dialog keep the class open and the attribute
    aria-hidden in step: from a state where the dialog is open and not hidden,
    or closed and hidden, every sequence of clicks and keys leads to such a
    state again; they touch no other class; and after the Escape key, the
    close button or a click on the backdrop the dialog is closed. *)
Theorem dialog_stays_coherent (events : list modalEvent) (m : modal) :
  (modalCoherent m -> modalCoherent (modalRun events m)) /\
  (forall token, token <> "open" ->
     token ∈ classList (modalRun events m) <-> token ∈ classList m) /\
  ("open" ∉ classList (modalRun (events ++ [Keydown "Escape"]) m)) /\
  ("open" ∉ classList (modalRun (events ++ [ClickCloseRef]) m)) /\
  ("open" ∉ classList (modalRun (events ++ [ClickInModal true]) m)) /\
  ("open" ∈ classList (modalRun (events ++ [ClickOpenRef]) m)).
Proof.
  unfold modalRun. rewrite !fold_left_app.
  split; [|split; [|split; [|split; [|split]]]].
  - revert m. induction events as [|e events IH]; intros m Hm; [assumption|].
    simpl. apply IH, modalStep_coherent, Hm.
  - revert m. induction events as [|e events IH]; intros m token Hne; [reflexivity|].
    simpl. rewrite (IH _ token Hne). apply modalStep_other_classes, Hne.
  - cbn [fold_left modalStep]. rewrite String.eqb_refl, andb_true_l.
    destruct (bool_decide ("open" ∈ classList (fold_left modalStep events m))) eqn:E.
    + apply closed_after_closeModal.
    + apply bool_decide_eq_false in E. exact E.
  - apply closed_after_closeModal.
  - apply closed_after_closeModal.
  - apply open_after_openModal.
Qed.

End Dialog.

(** ** The flags list and the results panel *)

Section Rendering.
Context `{Builtins}.
#[local] Arguments String.append !s1 s2 : simpl nomatch.

Lemma flag_item_counts (f : flag) (cls : string) :
  cls = "flag-bad" \/ cls = "flag-warn" \/ cls = "flag-good" ->
  let item := ("<li class=" ++ dq ++ cls ++ dq ++ ">" ++ escapeHtml (msg f) ++ "</li>")%string in
  occurrences "<" item = 2 /\ occurrences ">" item = 2 /\ occurrences "034" item = 2.
Proof.
  intros Hcls. cbv zeta.
  destruct (escapeHtml_counts (msg f)) as (H1 & H2 & H3 & _).
  rewrite !occurrences_app, H1, H2, H3.
  destruct Hcls as [-> | [-> | ->]]; repeat split; reflexivity.
Qed.

(** X17: the flags list gets one item per flag, or the item "No flags." for
    none, and no message can add markup to it: whatever the messages hold, the
    text written has exactly two [<], two [>] and two double quotes per
    item. *)
Theorem renderFlags_markup (flags : list flag) :
  occurrences "<" (renderFlags flags) = 2 * Nat.max 1 (List.length flags) /\
  occurrences ">" (renderFlags flags) = 2 * Nat.max 1 (List.length flags) /\
  occurrences "034" (renderFlags flags) = 2 * Nat.max 1 (List.length flags).
Proof.
  destruct flags as [|f flags]; [repeat split; reflexivity|].
  unfold renderFlags.
  set (item := fun f : flag => _).
  assert (forall g, occurrences "<" (item g) = 2 /\ occurrences ">" (item g) = 2
                    /\ occurrences "034" (item g) = 2) as Hitem.
  { intros g. subst item. cbv beta zeta. apply flag_item_counts.
    destruct (String.eqb (level g) "bad"); [auto|].
    destruct (String.eqb (level g) "warn"); auto. }
  replace (Nat.max 1 (List.length (f :: flags))) with (S (List.length flags))
    by (simpl; lia).
  revert f. induction flags as [|g flags IH]; intros f.
  - change (String.concat "" (map item [f])) with (item f).
    destruct (Hitem f) as (-> & -> & ->). repeat split; reflexivity.
  - change (String.concat "" (map item (f :: g :: flags)))
      with (item f ++ "" ++ String.concat "" (map item (g :: flags)))%string.
    rewrite !occurrences_app.
    destruct (Hitem f) as (-> & -> & ->).
    destruct (IH g) as (-> & -> & ->). simpl. repeat split; lia.
Qed.

(** X18: the badge next to a CAC range names the category of that range, in
    script.js and in the second script of part_000: Low with "≤15%",
    Intermediate–High with ">15–50%", High with ">50%"; and a PTP success gets
    the badge Low or Intermediate–High, never High. *)
Theorem badges_match (cacScore ageYears sex symptom : value) :
  (forall range category,
      Build4.interpretCAC cacScore = Build4.Range range category ->
      (range = "≤15%" /\
       Build4.pillFor category =
         ("<span class=" ++ dq ++ "badge low" ++ dq ++ ">Low ≤15%</span>")%string)
      \/ (range = ">15–50%" /\
          Build4.pillFor category =
            ("<span class=" ++ dq ++ "badge high" ++ dq ++ ">Intermediate–High &gt;15%</span>")%string)
      \/ (range = ">50%" /\
          Build4.pillFor category =
            ("<span class=" ++ dq ++ "badge veryhigh" ++ dq ++ ">High &gt;50%</span>")%string)) /\
  (forall c,
      Script.interpretCAC cacScore = Some c ->
      (Script.range c = "≤15%" /\
       Script.pill (Script.category c) =
         ("<span class=" ++ dq ++ "badge low" ++ dq ++ ">Low ≤15%</span>")%string)
      \/ (Script.range c = ">15–50%" /\
          Script.pill (Script.category c) =
            ("<span class=" ++ dq ++ "badge high" ++ dq ++ ">Intermediate–High >15%</span>")%string)
      \/ (Script.range c = ">50%" /\
          Script.pill (Script.category c) =
            ("<span class=" ++ dq ++ "badge veryhigh" ++ dq ++ ">High >50%</span>")%string)) /\
  (forall display category fl,
      Build4.calculatePretestProbability ageYears sex symptom
        = Build4.Success display category fl ->
      Build4.pillFor category =
        ("<span class=" ++ dq ++ "badge low" ++ dq ++ ">Low ≤15%</span>")%string
      \/ Build4.pillFor category =
           ("<span class=" ++ dq ++ "badge high" ++ dq ++ ">Intermediate–High &gt;15%</span>")%string) /\
  (forall display category fl,
      Script.calculatePretestProbability ageYears sex symptom
        = Script.Success display category fl ->
      Script.pill category =
        ("<span class=" ++ dq ++ "badge low" ++ dq ++ ">Low ≤15%</span>")%string
      \/ Script.pill category =
           ("<span class=" ++ dq ++ "badge high" ++ dq ++ ">Intermediate–High >15%</span>")%string).
Proof.
  split; [|split; [|split]].
  - unfold Build4.interpretCAC. intros range category.
    repeat match goal with
           | |- context [if ?c then _ else _] => destruct c
           end; intros E; inversion E; subst; auto.
  - unfold Script.interpretCAC. intros c.
    repeat match goal with
           | |- context [if ?c then _ else _] => destruct c
           end; intros E; inversion E; subst; auto.
  - intros display category fl Hr.
    destruct (build4_outcome ageYears sex symptom)
      as [[_ E] | [(_ & _ & E) | [(_ & _ & E) | [(b & _ & _ & _ & E)
          | (b & p & _ & _ & _ & _ & _ & _ & E)]]]];
      rewrite E in Hr; try discriminate.
    inversion Hr. unfold categoryOf. destruct (p <=? 15)%Z; auto.
  - unfold Script.calculatePretestProbability. intros display category fl.
    destruct (negb (truthy (getAgeBand ageYears)) || negb (truthy sex)
              || negb (truthy symptom)); [discriminate|].
    destruct (lookupPTP PTP_TABLE symptom sex (getAgeBand ageYears)) as [p|];
      [|discriminate].
    intros Hr. inversion Hr. unfold categoryOf. destruct (p <=? 15)%Z; auto.
Qed.

Lemma first_character_differs (a b : string) :
  String.get 0 a <> String.get 0 b -> a <> b.
Proof. intros Hne ->. apply Hne. reflexivity. Qed.

(** X19: which placeholder the results panel shows.  The two scripts of
    part_000 write "Fix the flagged inputs to calculate." exactly when the PTP
    part failed, whatever the CAC field holds; script.js writes "Enter inputs
    and tap Calculate." exactly when the PTP part failed and there is no CAC
    result, and shows a CAC result on its own otherwise. *)
Theorem results_placeholders (els : form) :
  (fst (Detailed.calculated els) =
     ("<div class=" ++ dq ++ "empty" ++ dq ++ ">Fix the flagged inputs to calculate.</div>")%string
   <-> Detailed.ok (Detailed.ptpObj (Detailed.onCalculate els)) = false) /\
  (fst (Build4.calculated els) =
     ("<div class=" ++ dq ++ "empty" ++ dq ++ ">Fix the flagged inputs to calculate.</div>")%string
   <-> Build4.ok (fst (fst (Build4.onCalculate els))) = false) /\
  (Script.calculated els =
     ("<div class=" ++ dq ++ "empty" ++ dq ++ ">Enter inputs and tap <b>Calculate</b>.</div>")%string
   <-> Script.ok (fst (Script.onCalculate els)) = false
       /\ snd (Script.onCalculate els) = None).
Proof.
  unfold Detailed.calculated, Build4.calculated, Script.calculated. cbn [fst].
  split; [|split].
  - destruct (Detailed.ptpObj (Detailed.onCalculate els)) as [fl b | p d c b fl];
      cbn [Detailed.renderResults Detailed.ok]; [split; reflexivity|].
    split; [|discriminate]. intros E. exfalso. revert E.
    apply first_character_differs. simpl. discriminate.
  - destruct (fst (fst (Build4.onCalculate els))) as [fl | d c fl];
      cbn [Build4.renderResults Build4.ok]; [split; reflexivity|].
    split; [|discriminate]. intros E. exfalso. revert E.
    apply first_character_differs. simpl. discriminate.
  - destruct (fst (Script.onCalculate els)) as [fl | d c fl];
      destruct (snd (Script.onCalculate els)) as [cr|];
      unfold Script.renderResults; simpl.
    + split; [|intros [_ ?]; discriminate].
      intros E. exfalso. revert E. apply first_character_differs. simpl. discriminate.
    + split; auto.
    + split; [|intros [? _]; discriminate].
      intros E. exfalso. revert E. apply first_character_differs. simpl. discriminate.
    + split; [|intros [? _]; discriminate].
      intros E. exfalso. revert E. apply first_character_differs. simpl. discriminate.
Qed.

(** X20: on a listed sex and symptom script.js settles a call as the first
    script of part_000 does and keeps less of it: the same display and
    category on a success, and a failure without flag or band where that one
    fails. *)
Theorem script_projects_detailed (ageYears sex symptom : value) :
  In sex sexes -> In symptom symptoms ->
  Script.calculatePretestProbability ageYears sex symptom =
    match Detailed.calculatePretestProbability ageYears sex symptom with
    | Detailed.Success _ display category _ _ => Script.Success display category []
    | Detailed.Failure _ _ => Script.Failure []
    end.
Proof.
  intros Hs Hy.
  assert (truthy sex = true) as Hts
    by (unfold sexes in Hs; simpl in Hs; destruct Hs as [<- | [<- | []]]; reflexivity).
  assert (truthy symptom = true) as Hty
    by (unfold symptoms in Hy; simpl in Hy; destruct Hy as [<- | [<- | []]]; reflexivity).
  destruct (getAgeBand_range ageYears) as [E | [E | (band & Hin & E)]].
  - rewrite (detailed_null_age _ sex symptom E).
    unfold Script.calculatePretestProbability. rewrite E. reflexivity.
  - rewrite (detailed_lt30 _ sex symptom E).
    unfold Script.calculatePretestProbability.
    rewrite E, Hts, Hty, (table_lt30 symptom sex Hy Hs). reflexivity.
  - rewrite (detailed_band _ sex symptom band Hin E),
      (sexFlags_valid _ Hs), (symptomFlags_valid _ Hy).
    destruct (script_valid_triple ageYears sex symptom band Hin E Hs Hy)
      as (ptp & Hp & ->).
    simpl. rewrite Hp. reflexivity.
Qed.

End Rendering.

(** ** The further statements at concrete inputs *)

Section MoreWitnesses.
#[local] Existing Instance sampleBuiltins.

Lemma escapeHtml_injective_witness : "Age <30 & up" = "Age <30 & up".
Proof. apply (escapeHtml_injective "Age <30 & up" "Age <30 & up"). reflexivity. Defined.

Lemma part_000_scripts_agree_witness :
  Build4.calculatePretestProbability (VNum 62) (VStr "women") (VStr "chestPain")
    = Build4.Success "≤16%" "intermediateHigh" [].
Proof.
  apply (proj2 (proj2 (part_000_scripts_agree (VNum 62) (VStr "women") (VStr "chestPain")))
           16%Z "≤16%" "intermediateHigh" (VStr "60-69") []).
  vm_compute. reflexivity.
Defined.

Lemma detailed_buckets_witness :
  Detailed.interpretCAC (VNum 0.5) =
    Some (Detailed.Bucket ">=1000" ">50%" "veryhigh" "CAC ≥1000" "CAC ≥1000 → >50%.") /\
  Detailed.interpretCAC (VStr "57") =
    Some (Detailed.Bucket "1-99" "≤15%" "low" "CAC 1–99" "CAC 1–99 → ≤15% (low).").
Proof.
  split.
  - apply (proj2 (proj2 (proj2 (proj2
             (detailed_buckets (VNum 0.5) ltac:(discriminate) ltac:(discriminate)
                ltac:(discriminate)))))).
    left. split; vm_compute; reflexivity.
  - apply (proj1 (proj2
             (detailed_buckets (VStr "57") ltac:(discriminate) ltac:(discriminate)
                ltac:(discriminate)))); vm_compute; reflexivity.
Defined.

Lemma detailed_over_100_warning_witness :
  Detailed.ageBand
    (Detailed.ptpObj (Detailed.onCalculate (Form "101" "men" "dyspnea" ""))) = VStr "70+".
Proof.
  apply (proj2 (detailed_over_100_warning (Form "101" "men" "dyspnea" "")));
    vm_compute; reflexivity.
Defined.

Lemma empty_age_is_below_30_witness :
  Detailed.ok
    (Detailed.ptpObj (Detailed.onCalculate (Form "" "men" "chestPain" ""))) = false /\
  Detailed.ageBand
    (Detailed.ptpObj (Detailed.onCalculate (Form "" "men" "chestPain" ""))) = VStr "lt30".
Proof.
  destruct (@empty_age_is_below_30 sampleBuiltins "" "men" "chestPain" ""
              ltac:(vm_compute; reflexivity)) as (Hok & Hband & _).
  split; assumption.
Defined.

Lemma getAgeBand_monotone_witness :
  bandRank (getAgeBand (VNum 39.5)) <= bandRank (getAgeBand (VNum 62)).
Proof. apply (getAgeBand_monotone 39.5 62); vm_compute; reflexivity. Defined.

Lemma dialog_stays_coherent_witness :
  modalCoherent
    (modalRun [ClickOpenRef; Keydown "Tab"; ClickInModal false; Keydown "Escape"]
       (Modal {["modal"]} (Some "true"))).
Proof.
  apply (proj1 (dialog_stays_coherent
                  [ClickOpenRef; Keydown "Tab"; ClickInModal false; Keydown "Escape"]
                  (Modal {["modal"]} (Some "true")))).
  right. split; [|reflexivity].
  simpl. rewrite elem_of_singleton. discriminate.
Defined.

Lemma badges_match_witness :
  Build4.pillFor "intermediateHigh" =
    ("<span class=" ++ dq ++ "badge low" ++ dq ++ ">Low ≤15%</span>")%string
  \/ Build4.pillFor "intermediateHigh" =
       ("<span class=" ++ dq ++ "badge high" ++ dq ++ ">Intermediate–High &gt;15%</span>")%string.
Proof.
  apply (proj1 (proj2 (proj2
           (badges_match VNull (VNum 45) (VStr "men") (VStr "chestPain"))))
           "≤22%" "intermediateHigh" []).
  vm_compute. reflexivity.
Defined.

Lemma script_projects_detailed_witness :
  Script.calculatePretestProbability (VNum 51) (VStr "men") (VStr "dyspnea") =
    match Detailed.calculatePretestProbability (VNum 51) (VStr "men") (VStr "dyspnea") with
    | Detailed.Success _ display category _ _ => Script.Success display category []
    | Detailed.Failure _ _ => Script.Failure []
    end.
Proof.
  apply (script_projects_detailed (VNum 51) (VStr "men") (VStr "dyspnea"));
    simpl; auto.
Defined.

End MoreWitnesses.

(** ** Missing and invalid scores in the scripts with three buckets *)

Section ThreeBucketInvalid.
Context `{Builtins}.
Local Open Scope float_scope.

Lemma three_bucket_invalid cacScore :
  is_finite (Number cacScore) = false \/ (Number cacScore <? 0) = true ->
  Build4.interpretCAC cacScore = Build4.Invalid "CAC must be a number ≥ 0."
  /\ Script.interpretCAC cacScore = None.
Proof.
  unfold Build4.interpretCAC, Script.interpretCAC. cbv zeta.
  intros [-> | ->]; [|rewrite orb_true_r]; split; reflexivity.
Qed.

(** C6, as the scripts with three buckets have it.  [interpretCAC] has no
    test for a missing input there: the null for an empty CAC field is the
    answer of [onCalculate], which calls [interpretCAC] on a field that is
    not empty only.  Called all the same, it converts first: null, and the
    empty string when it converts to 0, are classified low like the score 0,
    and undefined, which converts to NaN, is invalid.  On an input whose
    conversion is not finite or is negative, such as -1, the second script of
    part_000 answers its failure with the message "CAC must be a number ≥ 0.",
    neither null nor a success, and script.js answers null.  The PTP result
    that [onCalculate] hands over is the same whatever the CAC field holds. *)
Theorem three_bucket_missing_and_invalid :
  (forall els,
      cac_value els = "" ->
      snd (fst (Build4.onCalculate els)) = None
      /\ snd (Script.onCalculate els) = None) /\
  (forall els,
      cac_value els <> "" ->
      snd (fst (Build4.onCalculate els))
        = Some (Build4.interpretCAC (VStr (cac_value els)))
      /\ snd (Script.onCalculate els) = Script.interpretCAC (VStr (cac_value els))) /\
  (forall cacScore,
      is_finite (Number cacScore) = false \/ (Number cacScore <? 0) = true ->
      Build4.interpretCAC cacScore = Build4.Invalid "CAC must be a number ≥ 0."
      /\ Script.interpretCAC cacScore = None) /\
  (Build4.interpretCAC (VNum (-1)) = Build4.Invalid "CAC must be a number ≥ 0."
   /\ Script.interpretCAC (VNum (-1)) = None) /\
  (Build4.interpretCAC VUndefined = Build4.Invalid "CAC must be a number ≥ 0."
   /\ Script.interpretCAC VUndefined = None) /\
  (Build4.interpretCAC VNull = Build4.Range "≤15%" "low"
   /\ Script.interpretCAC VNull = Some (Script.CacRange "≤15%" "low")) /\
  (StringToNumber "" = zero ->
   Build4.interpretCAC (VStr "") = Build4.Range "≤15%" "low"
   /\ Script.interpretCAC (VStr "") = Some (Script.CacRange "≤15%" "low")) /\
  (forall els cacText,
      fst (fst (Build4.onCalculate
                  (Form (age_value els) (sex_value els) (symptom_value els) cacText)))
        = fst (fst (Build4.onCalculate els))
      /\ fst (Script.onCalculate
                (Form (age_value els) (sex_value els) (symptom_value els) cacText))
         = fst (Script.onCalculate els)).
Proof.
  split; [|split; [|split; [|split; [|split; [|split; [|split]]]]]].
  - intros els E. unfold Build4.onCalculate, Script.onCalculate. cbv zeta.
    cbn [fst snd]. rewrite cac_guard, E. split; reflexivity.
  - intros els E. unfold Build4.onCalculate, Script.onCalculate. cbv zeta.
    cbn [fst snd truthy]. rewrite cac_guard.
    destruct (String.eqb_spec (cac_value els) "") as [E' | _]; [contradiction|].
    split; reflexivity.
  - apply three_bucket_invalid.
  - split; vm_compute; reflexivity.
  - split; vm_compute; reflexivity.
  - split; vm_compute; reflexivity.
  - intros E0. unfold Build4.interpretCAC, Script.interpretCAC. cbv zeta.
    simpl Number. rewrite E0. split; reflexivity.
  - intros els cacText. split; reflexivity.
Qed.

End ThreeBucketInvalid.

Section ThreeBucketInvalidAtInputs.
#[local] Existing Instance sampleBuiltins.

Lemma three_bucket_missing_and_invalid_witness :
  (snd (fst (Build4.onCalculate (Form "45" "men" "chestPain" ""))) = None
   /\ snd (Script.onCalculate (Form "45" "men" "chestPain" "")) = None) /\
  (snd (fst (Build4.onCalculate (Form "45" "men" "chestPain" "abc")))
     = Some (Build4.interpretCAC (VStr "abc"))
   /\ snd (Script.onCalculate (Form "45" "men" "chestPain" "abc"))
      = Script.interpretCAC (VStr "abc")) /\
  (Build4.interpretCAC (VStr "abc") = Build4.Invalid "CAC must be a number ≥ 0."
   /\ Script.interpretCAC (VStr "abc") = None) /\
  (Build4.interpretCAC (VNum (-0.25)) = Build4.Invalid "CAC must be a number ≥ 0."
   /\ Script.interpretCAC (VNum (-0.25)) = None) /\
  (Build4.interpretCAC (VStr "") = Build4.Range "≤15%" "low"
   /\ Script.interpretCAC (VStr "") = Some (Script.CacRange "≤15%" "low")).
Proof.
  destruct (@three_bucket_missing_and_invalid sampleBuiltins)
    as (Hempty & Hcall & Hbad & _ & _ & _ & Hzero & _).
  split; [|split; [|split; [|split]]].
  - apply (Hempty (Form "45" "men" "chestPain" "")). reflexivity.
  - apply (Hcall (Form "45" "men" "chestPain" "abc")). discriminate.
  - apply (Hbad (VStr "abc")). left. vm_compute. reflexivity.
  - apply (Hbad (VNum (-0.25))). right. vm_compute. reflexivity.
  - apply Hzero. vm_compute. reflexivity.
Defined.

(** What the specification says of [classify] and these scripts do not do:
    script.js answers null on -1, and null and the empty string are
    classified low, not answered by null. *)
Lemma cac_missing_and_invalid_counterexample :
  Script.interpretCAC (VNum (-1)) = None /\
  Build4.interpretCAC VNull = Build4.Range "≤15%" "low" /\
  Build4.interpretCAC (VStr "") = Build4.Range "≤15%" "low" /\
  Script.interpretCAC VNull = Some (Script.CacRange "≤15%" "low") /\
  Script.interpretCAC VNull <> None /\
  Script.interpretCAC (VStr "") = Some (Script.CacRange "≤15%" "low") /\
  Script.interpretCAC (VStr "") <> None.
Proof.
  repeat split; try (vm_compute; reflexivity); vm_compute; discriminate.
Qed.

End ThreeBucketInvalidAtInputs.
